(** * ACBF metadata adapter (comicapi [acbfxml.py]): shallow embedding

    The development embeds the [ACBF] tag class of [src/acbfxml.py]:
    the ElementTree operations it relies on, the write-side merge
    [_convert_metadata_to_xml], the read-side extraction
    [_convert_xml_to_metadata], and the archive-facing methods
    [has_tags], [read_tags], [write_tags].

    Conventions.
    - Python [str] is [string]; text is taken to be ASCII, so [casefold]
      is ASCII lower-casing and [\d] is [0-9].
    - An [xml.etree.ElementTree.Element] is a value [Elem tag attrib text
      children].  The [tail] of an element is never read by the adapter
      and is left out.  An element reference held in a Python variable
      is a location (a path of child indices from the root); mutation
      through the reference is an update of the root at that location.
    - Code that can raise returns [result]; code that mutates the tree
      takes the root and returns the new root. *)

From Stdlib Require Import String Ascii List ZArith Lia Bool Arith.
From Stdlib Require Import DecimalString.
Import ListNotations.

Local Open Scope list_scope.

(** ** Results and exceptions *)

Inductive exn : Type :=
| ParseError
| IndexError
| ValueError
| TypeError
| Exception (msg : string).

Inductive result (A : Type) : Type :=
| Ok (a : A)
| Raise (e : exn).

Arguments Ok {A} a.
Arguments Raise {A} e.

Definition bind {A B : Type} (r : result A) (k : A -> result B) : result B :=
  match r with
  | Ok a => k a
  | Raise e => Raise e
  end.

Notation "'let*' x ':=' r 'in' k" := (bind r (fun x => k))
  (at level 10, x pattern, r at level 100, k at level 200).

Definition is_ok {A : Type} (r : result A) : bool :=
  match r with Ok _ => true | Raise _ => false end.

(** ** Python string operations used by the adapter *)

Module Py.

Definition chars (s : string) : list ascii := list_ascii_of_string s.
Definition str (l : list ascii) : string := string_of_list_ascii l.

(** Truthiness of [str | None] and [int | None]. *)
Definition truthy_str (s : string) : bool :=
  match s with EmptyString => false | _ => true end.

Definition truthy (o : option string) : bool :=
  match o with Some s => truthy_str s | None => false end.

Definition truthy_int (o : option Z) : bool :=
  match o with Some z => negb (Z.eqb z 0) | None => false end.

(** [==] on [str | None]. *)
Definition eq_opt (a b : option string) : bool :=
  match a, b with
  | Some x, Some y => String.eqb x y
  | None, None => true
  | _, _ => false
  end.

Definition mem (s : string) (l : list string) : bool :=
  existsb (String.eqb s) l.

Definition startswith (s p : string) : bool := String.prefix p s.

Fixpoint prefix_l (p s : list ascii) : bool :=
  match p, s with
  | [], _ => true
  | a :: p', b :: s' => Ascii.eqb a b && prefix_l p' s'
  | _ :: _, [] => false
  end.

Definition endswith (s suf : string) : bool :=
  prefix_l (rev (chars suf)) (rev (chars s)).

(** [s.removesuffix(suf)] *)
Definition removesuffix (s suf : string) : string :=
  if endswith s suf && truthy_str suf
  then String.substring 0 (String.length s - String.length suf) s
  else s.

(** [s[n:]] *)
Definition drop (n : nat) (s : string) : string :=
  String.substring n (String.length s - n) s.

Definition lower_char (c : ascii) : ascii :=
  let n := nat_of_ascii c in
  if (65 <=? n) && (n <=? 90) then ascii_of_nat (n + 32) else c.

Definition casefold (s : string) : string := str (map lower_char (chars s)).

Definition is_space (c : ascii) : bool :=
  let n := nat_of_ascii c in
  ((9 <=? n) && (n <=? 13)) || ((28 <=? n) && (n <=? 32)).

Definition is_digit (c : ascii) : bool :=
  let n := nat_of_ascii c in (48 <=? n) && (n <=? 57).

Fixpoint dropwhile {A : Type} (f : A -> bool) (l : list A) : list A :=
  match l with
  | [] => []
  | a :: l' => if f a then dropwhile f l' else l
  end.

Definition strip_by (f : ascii -> bool) (s : string) : string :=
  str (rev (dropwhile f (rev (dropwhile f (chars s))))).

(** [s.strip()] and [s.strip(cs)] *)
Definition strip (s : string) : string := strip_by is_space s.
Definition strip_chars (s cs : string) : string :=
  strip_by (fun c => existsb (Ascii.eqb c) (chars cs)) s.

(** [s.replace(a, b)] for one-character [a] and [b]. *)
Definition replace_char (a b : ascii) (s : string) : string :=
  str (map (fun c => if Ascii.eqb c a then b else c) (chars s)).

(** [s.split(sep)] for a non-empty separator: [skip] counts the
    characters of a matched separator still to be passed over. *)
Fixpoint split_aux (sep : list ascii) (skip : nat) (cur : list ascii)
         (s : list ascii) : list string :=
  match s with
  | [] => [str (rev cur)]
  | c :: s' =>
      match skip with
      | S k => split_aux sep k cur s'
      | O =>
          if prefix_l sep s
          then str (rev cur) :: split_aux sep (length sep - 1) [] s'
          else split_aux sep 0 (c :: cur) s'
      end
  end.

Definition split (s sep : string) : list string :=
  split_aux (chars sep) 0 [] (chars s).

(** [s.split()]: split on runs of whitespace, no empty pieces. *)
Fixpoint split_ws_aux (cur : list ascii) (s : list ascii) : list string :=
  match s with
  | [] => match cur with [] => [] | _ => [str (rev cur)] end
  | c :: s' =>
      if is_space c
      then match cur with
           | [] => split_ws_aux [] s'
           | _ => str (rev cur) :: split_ws_aux [] s'
           end
      else split_ws_aux (c :: cur) s'
  end.

Definition split_ws (s : string) : list string := split_ws_aux [] (chars s).

(** [sep.join(l)] *)
Fixpoint join (sep : string) (l : list string) : string :=
  match l with
  | [] => EmptyString
  | [a] => a
  | a :: l' => String.append a (String.append sep (join sep l'))
  end.

(** [str(n)] for an [int]. *)
Definition str_of_int (z : Z) : string := NilZero.string_of_int (Z.to_int z).

Fixpoint zeros (n : nat) : string :=
  match n with O => EmptyString | S k => String "0" (zeros k) end.

(** [f'{z:0w}']: sign-aware zero padding to width [w]. *)
Definition format_0 (w : nat) (z : Z) : string :=
  let digits := str_of_int (Z.abs z) in
  if (z <? 0)%Z
  then String "-" (String.append (zeros (w - 1 - String.length digits)) digits)
  else String.append (zeros (w - String.length digits)) digits.

(** [int(s)] for a [str]: surrounding whitespace, an optional sign, then
    decimal digits in which single underscores may separate digits. *)
Fixpoint int_digits (acc : Z) (after_digit : bool) (s : list ascii) : option Z :=
  match s with
  | [] => if after_digit then Some acc else None
  | c :: s' =>
      if is_digit c
      then int_digits (acc * 10 + Z.of_nat (nat_of_ascii c - 48)) true s'
      else if Ascii.eqb c "_" && after_digit
           then match s' with
                | d :: _ => if is_digit d then int_digits acc false s' else None
                | [] => None
                end
           else None
  end.

Definition int_of_str (s : string) : result Z :=
  let body := chars (strip s) in
  let r := match body with
           | "-"%char :: ds => option_map Z.opp (int_digits 0 false ds)
           | "+"%char :: ds => int_digits 0 false ds
           | ds => int_digits 0 false ds
           end in
  match r with Some z => Ok z | None => Raise ValueError end.

(** [re.match(r'\d{4}', s)]: the first four characters when all are digits. *)
Definition match_4_digits (s : string) : option string :=
  match chars s with
  | a :: b :: c :: d :: _ =>
      if is_digit a && is_digit b && is_digit c && is_digit d
      then Some (str [a; b; c; d]) else None
  | _ => None
  end.

End Py.

(** ** ElementTree: elements, attributes, paths *)

Module ET.

#[warnings="-register-all"]
Inductive Element : Type :=
  Elem { tag : string;
         attrib : list (string * string);
         text : option string;
         children : list Element }.

Definition set_tag (t : string) (e : Element) : Element :=
  Elem t (attrib e) (text e) (children e).
Definition set_attrib (a : list (string * string)) (e : Element) : Element :=
  Elem (tag e) a (text e) (children e).
Definition set_text (x : option string) (e : Element) : Element :=
  Elem (tag e) (attrib e) x (children e).
Definition set_children (cs : list Element) (e : Element) : Element :=
  Elem (tag e) (attrib e) (text e) cs.

(** [d.get(k)] and [d[k] = v] on an insertion-ordered dict with [str] keys. *)
Fixpoint lookup {V : Type} (k : string) (a : list (string * V)) : option V :=
  match a with
  | [] => None
  | (k', v) :: a' => if String.eqb k' k then Some v else lookup k a'
  end.

Fixpoint set_item {V : Type} (k : string) (v : V) (a : list (string * V))
  : list (string * V) :=
  match a with
  | [] => [(k, v)]
  | (k', v') :: a' =>
      if String.eqb k' k then (k, v) :: a' else (k', v') :: set_item k v a'
  end.

Definition set_items (kvs a : list (string * string)) : list (string * string) :=
  fold_left (fun acc kv => set_item (fst kv) (snd kv) acc) kvs a.

(** [e.get(k)] and [e.get(k, default)] *)
Definition get (k : string) (e : Element) : option string := lookup k (attrib e).
Definition get_default (k d : string) (e : Element) : string :=
  match get k e with Some v => v | None => d end.

(** [e.attrib[k] = v] *)
Definition set (k v : string) (e : Element) : Element :=
  set_attrib (set_item k v (attrib e)) e.

(** [e.append(c)] *)
Definition append (c : Element) (e : Element) : Element :=
  set_children (children e ++ [c]) e.

(** [e.clear()]: drops the subelements, the attributes and the text. *)
Definition clear (e : Element) : Element := Elem (tag e) [] None [].

(** [len(e)] and the truth value of an element ([bool(e)] is [len(e) != 0]). *)
Definition len (e : Element) : nat := length (children e).
Definition truthy (e : Element) : bool :=
  match children e with [] => false | _ => true end.

(** [e.findall(t)] and [e.find(t)] for a plain tag [t]: direct children. *)
Definition has_tag (t : string) (e : Element) : bool := String.eqb (tag e) t.
Definition findall_tag (t : string) (e : Element) : list Element :=
  filter (has_tag t) (children e).
Definition find_tag (t : string) (e : Element) : option Element :=
  List.find (has_tag t) (children e).

(** [e.iter()]: the element and its descendants in document order. *)
Fixpoint iter (e : Element) : list Element :=
  match e with
  | Elem _ _ _ cs => e :: flat_map iter cs
  end.

(** [e.find('.//' + t)]: first proper descendant with tag [t]. *)
Definition find_descendant (t : string) (e : Element) : option Element :=
  List.find (has_tag t) (flat_map iter (children e)).

(** *** Locations *)

Definition loc : Type := list nat.

Fixpoint get_at (l : loc) (e : Element) : option Element :=
  match l with
  | [] => Some e
  | i :: l' =>
      match nth_error (children e) i with
      | Some c => get_at l' c
      | None => None
      end
  end.

Fixpoint upd_nth {A : Type} (i : nat) (f : A -> A) (l : list A) : list A :=
  match l, i with
  | [], _ => []
  | a :: l', O => f a :: l'
  | a :: l', S j => a :: upd_nth j f l'
  end.

Fixpoint upd_at (l : loc) (f : Element -> Element) (e : Element) : Element :=
  match l with
  | [] => f e
  | i :: l' => set_children (upd_nth i (upd_at l' f) (children e)) e
  end.

(** [e.remove(c)] for the child [c] at index [i] of [e]. *)
Fixpoint remove_nth {A : Type} (i : nat) (l : list A) : list A :=
  match l, i with
  | [], _ => []
  | _ :: l', O => l'
  | a :: l', S j => a :: remove_nth j l'
  end.

Definition remove_child (i : nat) (e : Element) : Element :=
  set_children (remove_nth i (children e)) e.

(** One step of a path: the children tagged [t], each continued by [k];
    [i] is the index of the head of [cs] in its parent. *)
Fixpoint select (i : nat) (t : string) (k : Element -> list loc)
         (cs : list Element) : list loc :=
  match cs with
  | [] => []
  | c :: cs' =>
      (if has_tag t c then map (cons i) (k c) else [])
        ++ select (S i) t k cs'
  end.

Fixpoint iterfind (path : list string) (e : Element) : list loc :=
  match path with
  | [] => [[]]
  | t :: p => select 0 t (iterfind p) (children e)
  end.

(** [root.findall('a/b/c')] and [root.find('a/b/c')], the path given by its
    segments; the empty path matches nothing. *)
Definition findall (path : list string) (e : Element) : list loc :=
  match path with
  | [] => []
  | _ => iterfind path e
  end.

Definition find (path : list string) (e : Element) : option loc :=
  hd_error (findall path e).

(** The elements a list of locations stands for. *)
Definition elems_at (ls : list loc) (e : Element) : list Element :=
  flat_map (fun l => match get_at l e with Some x => [x] | None => [] end) ls.

(** *** [ET.indent] (two spaces per level) *)

Definition nl : string := String (ascii_of_nat 10) EmptyString.

Fixpoint spaces (level : nat) : string :=
  match level with
  | O => EmptyString
  | S k => String.append "  " (spaces k)
  end.

Definition indentation (level : nat) : string :=
  String.append nl (spaces level).

(** [not elem.text or not elem.text.strip()] *)
Definition blank (x : option string) : bool :=
  match x with
  | None => true
  | Some s => negb (Py.truthy_str s) || negb (Py.truthy_str (Py.strip s))
  end.

(** [_indent_children(e, level)] guarded by [len(e)], without the tails. *)
Fixpoint indent_at (level : nat) (e : Element) : Element :=
  match e with
  | Elem t a x [] => e
  | Elem t a x cs =>
      Elem t a (if blank x then Some (indentation (S level)) else x)
           (map (indent_at (S level)) cs)
  end.

Definition indent (tree : Element) : Element := indent_at 0 tree.

End ET.

Import ET.

(** ** The normalized record

    Modelled from the spec: the record types [GenericMetadata],
    [PageMetadata], [Credit] and the tag origin belong to comicapi and are
    not part of [acbfxml.py]; the fields are the ones the adapter lists in
    [supported_attributes] (spec section 3), plus [is_empty]. *)

Module PageMetadata.
Record t : Type := Build {
  filename : string;
  display_index : Z;
  archive_index : Z;
  bookmark : string;
  type : string }.
End PageMetadata.

Module Credit.
Record t : Type := Build {
  person : string;
  role : string;
  primary : bool;
  language : string }.
End Credit.

Module TagOrigin.
Record t : Type := Build { id : string; name : string }.
End TagOrigin.

(** The record is typed by what is stored in it.  A caller's record holds
    [int] in [volume], [day], [month], [year] and [str] in the name sets;
    the record the extraction builds holds attribute strings in [volume]
    (and possibly [year]) and [c.text], which may be [None], in the name
    sets.  [num] and [name] are these two types, [link] the type of a web
    link.  A Python [set] is the list of its members in iteration order. *)
Record GenericMetadata {num name link : Type} : Type := Build_md {
  is_empty : bool;
  series : option string;
  issue : option string;
  title : option string;
  volume : option num;
  genres : list string;
  description : option string;
  notes : option string;
  publisher : option string;
  imprint : option string;
  day : option num;
  month : option num;
  year : option num;
  language : option string;
  web_links : list link;
  manga : option string;
  maturity_rating : option string;
  scan_info : option string;
  tags : list string;
  pages : list PageMetadata.t;
  characters : list name;
  teams : list name;
  locations : list name;
  credits : list Credit.t;
  data_origin : option TagOrigin.t;
  issue_id : option string;
  series_id : option string;
  identifier : option string;
  rights : option string }.

Arguments GenericMetadata : clear implicits.

(** What the extraction stores where the record is annotated [int]. *)
Inductive raw_num : Type :=
| RInt (z : Z)
| RStr (s : string).

(** [GenericMetadata()] *)
Definition empty_md {num name link : Type} : GenericMetadata num name link :=
  {| is_empty := true;
     series := None; issue := None; title := None; volume := None;
     genres := []; description := None; notes := None;
     publisher := None; imprint := None;
     day := None; month := None; year := None;
     language := None; web_links := [];
     manga := None; maturity_rating := None; scan_info := None;
     tags := []; pages := [];
     characters := []; teams := []; locations := [];
     credits := []; data_origin := None;
     issue_id := None; series_id := None; identifier := None;
     rights := None |}.

(** [s.add(x)] on a set kept in iteration order. *)
Definition set_add (x : string) (s : list string) : list string :=
  if Py.mem x s then s else s ++ [x].

(** [set(l)] *)
Definition set_of_list (l : list string) : list string :=
  fold_left (fun s x => set_add x s) l [].

(** ** Collaborators of the adapter

    Modelled from the spec (section 6): the vocabulary of the generic
    record (role synonym tables, [add_credit]), the text utilities of
    [comicapi.utils], URL parsing, and the XML parser and serializer are
    consumed as given; they are parameters of the development. *)

Class Comicapi : Type := {
  Url : Type;
  url : Url -> string;
  parse_url : option string -> Url;
  writer_synonyms : list string;
  penciller_synonyms : list string;
  inker_synonyms : list string;
  colorist_synonyms : list string;
  letterer_synonyms : list string;
  cover_synonyms : list string;
  editor_synonyms : list string;
  translator_synonyms : list string;
  xlate : option string -> option string;
  split : option string -> string -> list string;
  parse_date_str : option string -> option Z * option Z * option Z;
  get_page_name_list : list string -> list string;
  add_credit : list Credit.t -> string -> string -> bool -> string
               -> list Credit.t;
  (* xml.etree.ElementTree: [None] stands for [ET.ParseError] *)
  fromstring : string -> option Element;
  tostring : Element -> string }.

(** [ET.fromstring] as a computation that may raise. *)
Definition parse `{Comicapi} (data : string) : result Element :=
  match fromstring data with
  | Some root => Ok root
  | None => Raise ParseError
  end.

(** The record a caller hands to [write_tags], and the record [read_tags]
    returns. *)
Definition Metadata `{Comicapi} : Type := GenericMetadata Z string Url.
Definition RawMetadata `{Comicapi} : Type :=
  GenericMetadata raw_num (option string) Url.

(** ** Write side: the helpers nested in [_convert_metadata_to_xml]

    The Python closures share the variable [root]; here each takes the
    root and returns the updated one.  A path ['a/b/c'] is written as the
    list of its segments. *)

Local Open Scope string_scope.
Local Open Scope list_scope.

Definition path : Type := list string.

Fixpoint fold_result {A B : Type} (f : A -> B -> result A) (l : list B) (a : A)
  : result A :=
  match l with
  | [] => Ok a
  | b :: l' => let* a' := f a b in fold_result f l' a'
  end.

(** The element built by [add_element]: [text] is set only when truthy. *)
Definition new_element (sub_element : string) (text : string)
           (attribs : list (string * string)) : Element :=
  Elem sub_element (set_items attribs [])
       (if Py.truthy_str text then Some text else None) [].

(** [add_element(element, sub_element, text, attribs)], on the element
    itself and on the element at a location of the root. *)
Definition add_element (sub_element : string) (text : string)
           (attribs : list (string * string)) (element : Element) : Element :=
  append (new_element sub_element text attribs) element.

Definition add_element_at (element : loc) (sub_element : string) (text : string)
           (attribs : list (string * string)) (root : Element) : Element :=
  upd_at element (add_element sub_element text attribs) root.

(** [ET.SubElement(parent, ...)]: appends [c] under [parent] and returns
    the location of the new child with the new root. *)
Definition SubElement (parent : loc) (c : Element) (root : Element)
  : loc * Element :=
  let n := match get_at parent root with Some p => len p | None => 0 end in
  (parent ++ [n], upd_at parent (append c) root).

Definition add_path_step (path_list : path) (root : Element) (i : nat)
  : result Element :=
  let test_path := firstn (S i) path_list in
  let p := nth i path_list EmptyString in
  match find test_path root with
  | Some _ => Ok root
  | None =>
      match i with
      | O => Ok (add_element p EmptyString [] root)
      | S _ =>
          let element_path := firstn i path_list in
          match find element_path root with
          | None =>
              Raise (Exception "add_path: Failed to find XML path element")
          | Some add_root => Ok (add_element_at add_root p EmptyString [] root)
          end
      end
  end.

Definition add_path (p : path) (root : Element) : result (loc * Element) :=
  let* root' := fold_result (add_path_step p) (seq 0 (length p)) root in
  match find p root' with
  | None => Raise (Exception "add_path: Failed to create XML path element")
  | Some ele => Ok (ele, root')
  end.

Definition get_or_create_element (tag : path) (root : Element)
  : result (loc * Element) :=
  match find tag root with
  | Some element => Ok (element, root)
  | None => add_path tag root
  end.

Definition remove_attribs (ele : Element) : Element := set_attrib [] ele.

(** [modify_element(path, value, attribs, clear_attribs)] *)
Definition modify_element (p : path) (value : string)
           (attribs : list (string * string)) (clear_attribs : bool)
           (root : Element) : result Element :=
  let element_path := removelast p in
  let element_name := last p EmptyString in
  let* (element_parent, root1) := get_or_create_element element_path root in
  let (element, root2) :=
    match find p root1 with
    | Some e => (e, root1)
    | None => SubElement element_parent (Elem element_name [] None []) root1
    end in
  Ok (upd_at element
        (fun e =>
           let e1 := if clear_attribs then remove_attribs e else e in
           set_attrib (set_items attribs (attrib e1))
                      (set_text (Some value) e1))
        root2).

(** [clear_element(full_ele)]: every child named [element_name] of the
    first element at [element_path] is removed. *)
Definition clear_element (full_ele : path) (root : Element) : Element :=
  let element_path := removelast full_ele in
  let element_name := last full_ele EmptyString in
  match find element_path root with
  | Some element_parent =>
      upd_at element_parent
        (fun e => set_children
                    (filter (fun c => negb (has_tag element_name c)) (children e))
                    e)
        root
  | None => root
  end.

Fixpoint loc_eqb (a b : loc) : bool :=
  match a, b with
  | [], [] => true
  | i :: a', j :: b' => Nat.eqb i j && loc_eqb a' b'
  | _, _ => false
  end.

(** [for x in found: if test(x): parent.remove(x)], for a list [found] of
    elements located in document order.  [parent.remove(x)] raises
    [ValueError] when [x] is not a child of [parent].  [root0] is the tree
    in which [found] was computed; [removed] counts the children of
    [parent] already taken out, which shifts the later indices. *)
Fixpoint remove_found (parent : loc) (test : Element -> bool)
         (found : list loc) (removed : nat) (root0 root : Element)
  : result Element :=
  match found with
  | [] => Ok root
  | l :: found' =>
      match get_at l root0 with
      | None => remove_found parent test found' removed root0 root
      | Some x =>
          if test x
          then
            if loc_eqb (removelast l) parent
            then remove_found parent test found' (S removed) root0
                   (upd_at parent (remove_child (last l 0 - removed)) root)
            else Raise ValueError
          else remove_found parent test found' removed root0 root
      end
  end.

(** ** Write side: the fields of [_convert_metadata_to_xml] *)

Section Merge.

Context {api : Comicapi}.

Definition ns_url : string := "http://www.acbf.info/xml/acbf/1.2".

Definition book_info_path : path := ["meta-data"; "book-info"].

(** Lines 268-297 of [add_credit(person, role, lang)]: the [author]
    element, or [None] when the name has no token and the call returns
    early. *)
Definition author_element (person role : string) (lang : option string)
  : option Element :=
  let name_split := Py.split_ws person in
  let '(first, middle, last, nick) :=
    match name_split with
    | [] => (None, None, None, None)
    | [n] => (None, None, None, Some n)
    | [f; l] => (Some f, None, Some l, None)
    | f :: m :: l :: _ => (Some f, Some m, Some l, None)
    end in
  if negb (Py.truthy first || Py.truthy last || Py.truthy nick)
  then None
  else
    let element := Elem "author" [("activity", role)] None [] in
    let element :=
      match lang with Some l => set "lang" l element | None => element end in
    let part (tag : string) (x : option string) (e : Element) : Element :=
      match x with Some v => add_element tag v [] e | None => e end in
    Some (part "nickname" nick
            (part "last-name" last
               (part "middle-name" middle (part "first-name" first element)))).

(** [add_credit(person, role, lang)] *)
Definition add_credit_element (person role : string) (lang : option string)
           (book_info : loc) (root : Element) : Element :=
  match author_element person role lang with
  | Some element => upd_at book_info (append element) root
  | None => root
  end.

(** The [if]/[elif] chain over [credit.role.casefold()]: the activity
    written, and whether [credit.language] is passed on. *)
Definition credit_activity (credit : Credit.t) : string * bool :=
  let role := Py.casefold (Credit.role credit) in
  if Py.mem role writer_synonyms then ("Writer", true)
  else if Py.mem role ["adapter"] then ("Adapter", true)
  else if Py.mem role ["artist"] then ("Artist", false)
  else if Py.mem role penciller_synonyms then ("Penciller", false)
  else if Py.mem role inker_synonyms then ("Inker", false)
  else if Py.mem role colorist_synonyms then ("Colorist", false)
  else if Py.mem role ["photographer"; "photo"] then ("Photographer", false)
  else if Py.mem role letterer_synonyms then ("Letterer", true)
  else if Py.mem role cover_synonyms then ("CoverArtist", false)
  else if Py.mem role editor_synonyms then ("Editor", true)
  else if Py.mem role ["assistant editor"] then ("Assistant Editor", true)
  else if Py.mem role translator_synonyms then ("Translator", true)
  else ("Other", true).

Definition write_credit (book_info : loc) (root : Element) (credit : Credit.t)
  : Element :=
  let (activity, with_language) := credit_activity credit in
  add_credit_element (Credit.person credit) activity
    (if with_language then Some (Credit.language credit) else None)
    book_info root.

(** Lines 314-359: wipe the authors, one [author] per credit. *)
Definition write_credits (md : Metadata) (book_info : loc) (root : Element)
  : Element :=
  let root := clear_element ["meta-data"; "book-info"; "author"] root in
  fold_left (write_credit book_info) (credits md) root.

(** Lines 361-377.  [sequence] is the list [findall] returned: when it has
    one member, [sequence.clear()] empties that list and leaves the tree
    as it is. *)
Definition write_sequence (md : Metadata) (book_info : loc) (root : Element)
  : result Element :=
  match series md with
  | Some md_series =>
      if negb (Py.truthy_str md_series) then Ok root else
      let sequence := findall ["meta-data"; "book-info"; "sequence"] root in
      let* root :=
        if Nat.eqb (length sequence) 1
        then Ok root
        else remove_found book_info
               (fun seq => Py.eq_opt (text seq) (issue md))
               sequence 0 root root in
      let element := Elem "sequence" [("title", md_series)] None [] in
      let element :=
        if Py.truthy (issue md) then set_text (issue md) element else element in
      let element :=
        match volume md with
        | Some v =>
            if Py.truthy_int (volume md)
            then set "volume" (Py.str_of_int v) element else element
        | None => element
        end in
      Ok (upd_at book_info (append element) root)
  | None => Ok root
  end.

(** Lines 379-390. *)
Definition write_title (md : Metadata) (book_info : loc) (root : Element)
  : Element :=
  match title md with
  | Some md_title =>
      if negb (Py.truthy_str md_title) then root else
      let cur_titles := findall ["meta-data"; "book-info"; "book-title"] root in
      let root :=
        fold_left
          (fun r title =>
             upd_at title
               (fun t =>
                  match get "lang" t with
                  | None => clear t
                  | Some l => if String.eqb l "en" then clear t else t
                  end) r)
          cur_titles root in
      let element := Elem "book-title" [] (Some md_title) [] in
      let element :=
        match language md with
        | Some l => if Py.truthy_str l then set "lang" l element else element
        | None => element
        end in
      upd_at book_info (append element) root
  | None => root
  end.

Definition allow_genres : list string :=
  ["other"; "adult"; "adventure"; "alternative"; "artbook"; "biography";
   "caricature"; "children"; "computer"; "crime"; "education"; "fantasy";
   "history"; "horror"; "humor"; "manga"; "military"; "mystery";
   "non-fiction"; "politics"; "real_life"; "religion"; "romance";
   "science_fiction"; "sports"; "superhero"; "western"].

(** The children of the element at a location. *)
Definition children_at (l : loc) (root : Element) : list Element :=
  match get_at l root with Some e => children e | None => [] end.

(** [for cg in cur_genres: if cg.text == g: ...; break], giving [match]. *)
Fixpoint genre_match (cur_genres : list Element) (g : string) : result Z :=
  match cur_genres with
  | [] => Ok 0%Z
  | cg :: rest =>
      if Py.eq_opt (text cg) (Some g)
      then match get "match" cg with
           | Some m => if Py.truthy_str m then Py.int_of_str m else Ok 0%Z
           | None => Ok 0%Z
           end
      else genre_match rest g
  end.

Definition write_genre (book_info : loc) (cur_genres : list Element)
           (root : Element) (g : string) : result Element :=
  let g := Py.replace_char " " "_" (Py.casefold g) in
  let g := if String.eqb g "historical" then "history" else g in
  if Py.mem g allow_genres
  then
    let* m := genre_match cur_genres g in
    if (m >? 0)%Z
    then Ok (add_element_at book_info "genre" g
               [("match", Py.str_of_int m)] root)
    else Ok (add_element_at book_info "genre" g [] root)
  else Ok root.

(** [md.genres] after [md.genres.add('manga')] of line 402. *)
Definition genres_with_manga (md : Metadata) : list string :=
  match manga md with
  | Some m =>
      if Py.startswith (Py.casefold m) "yes"
      then set_add "manga" (genres md) else genres md
  | None => genres md
  end.

(** Lines 392-420. *)
Definition write_genres (md : Metadata) (book_info : loc) (root : Element)
  : result Element :=
  let cur_genres :=
    elems_at (findall ["meta-data"; "book-info"; "genre"] root) root in
  let root := clear_element ["meta-data"; "book-info"; "genre"] root in
  fold_result (write_genre book_info cur_genres) (genres_with_manga md) root.

Definition nlnl : string := String.append nl nl.

(** The body of the loop over [cur_annos]: does [anno] already hold the
    description? *)
Definition annotation_matches (md_description : string) (anno : Element)
  : bool :=
  if Nat.ltb 0 (len anno)
  then
    let split_a := map text (children anno) in
    let split_desc := Py.split md_description nlnl in
    if Nat.eqb (length split_a) (length split_desc)
    then
      let inter_found :=
        length (filter (fun ta => Py.eq_opt (Some (fst ta)) (snd ta))
                       (combine split_desc split_a)) in
      Nat.eqb inter_found (length split_desc)
    else false
  else Py.eq_opt (text anno) (Some md_description).

(** Lines 422-455. *)
Definition write_description (md : Metadata) (book_info : loc) (root : Element)
  : result Element :=
  match description md with
  | Some md_description =>
      if negb (Py.truthy_str md_description) then Ok root else
      let anno_path := ["meta-data"; "book-info"; "annotation"] in
      let cur_annos := elems_at (findall anno_path root) root in
      let found := existsb (annotation_matches md_description) cur_annos in
      if found then Ok root else
      let text_list := Py.split md_description nlnl in
      let element :=
        fold_left (fun e t => add_element "p" t [] e) text_list
                  (Elem "annotation" [] None []) in
      let (element, root) := SubElement book_info element root in
      match language md with
      | Some md_language =>
          if negb (Py.truthy_str md_language) then Ok root else
          let same_lang (a : loc) : bool :=
            match get_at a root with
            | Some x => Py.eq_opt (get "lang" x) (Some md_language)
            | None => false
            end in
          let* (element, root) :=
            match List.find same_lang (findall anno_path root) with
            | Some a =>
                if loc_eqb (removelast a) book_info
                then Ok (book_info ++ [last element 0 - 1],
                         upd_at book_info (remove_child (last a 0)) root)
                else Raise ValueError
            | None => Ok (element, root)
            end in
          Ok (upd_at element (set "lang" md_language) root)
      | None => Ok root
      end
  | None => Ok root
  end.

Definition dbname (md : Metadata) : string :=
  match data_origin md with
  | None => "Unknown"
  | Some o => TagOrigin.name o
  end.

Definition dbref_type (dbref : Element) : string :=
  Py.casefold (get_default "type" "" dbref).

(** Lines 458-463. *)
Definition write_web_links (md : Metadata) (book_info : loc) (root : Element)
  : Element :=
  match web_links md with
  | [] => root
  | _ =>
      let is_url (c : Element) : bool :=
        has_tag "databaseref" c && String.eqb (dbref_type c) "url" in
      let root :=
        upd_at book_info
          (fun e => set_children (filter (fun c => negb (is_url c)) (children e)) e)
          root in
      fold_left
        (fun r web =>
           add_element_at book_info "databaseref" (url web)
             [("type", "URL"); ("dbname", dbname md)] r)
        (web_links md) root
  end.

(** Lines 465-472. *)
Definition write_maturity_rating (md : Metadata) (book_info : loc)
           (root : Element) : Element :=
  match maturity_rating md with
  | Some rating =>
      if negb (Py.truthy_str rating) then root else
      let rates :=
        filter (has_tag "content-rating") (children_at book_info root) in
      let found := existsb (fun rate => Py.eq_opt (text rate) (Some rating)) rates in
      if found then root
      else add_element_at book_info "content-rating" rating [] root
  | None => root
  end.

(** Lines 474-475. *)
Definition write_keywords (md : Metadata) (root : Element) : result Element :=
  match tags md with
  | [] => Ok root
  | _ =>
      modify_element ["meta-data"; "book-info"; "keywords"]
                     (Py.join ", " (tags md)) [] false root
  end.

(** Lines 477-493, once for each of characters, teams, locations. *)
Definition write_names (p : path) (names : list string) (root : Element)
  : result Element :=
  match names with
  | [] => Ok root
  | _ =>
      let* (container, root) := get_or_create_element p root in
      let root := upd_at container clear root in
      Ok (fold_left (fun r c => add_element_at container "name" c [] r)
                    names root)
  end.

(** Lines 495-510.  The test on the series id sits inside the branch taken
    for an issue-id reference, as in the source. *)
Definition write_ids (md : Metadata) (book_info : loc) (root : Element)
  : Element :=
  if Py.truthy (issue_id md) || Py.truthy (series_id md)
  then
    let dbrefs := filter (has_tag "databaseref") (children_at book_info root) in
    let same (x : option string) (dbref : Element) : bool :=
      match x with
      | Some _ => Py.eq_opt (text dbref) x
      | None => false
      end in
    let step (acc : bool * bool) (dbref : Element) : bool * bool :=
      let (add_issue, add_series) := acc in
      if Py.mem (dbref_type dbref) ["issueid"; "issue_id"; "issue-id"]
      then
        let add_issue :=
          if same (issue_id md) dbref then false else add_issue in
        let add_series :=
          if Py.mem (dbref_type dbref) ["seriesid"; "series_id"; "series-id"]
          then if same (series_id md) dbref then false else add_series
          else add_series in
        (add_issue, add_series)
      else (add_issue, add_series) in
    let (add_issue, add_series) := fold_left step dbrefs (true, true) in
    let root :=
      match issue_id md with
      | Some i =>
          if Py.truthy_str i && add_issue
          then add_element_at book_info "databaseref" i
                 [("type", "IssueID"); ("dbname", dbname md)] root
          else root
      | None => root
      end in
    match series_id md with
    | Some s =>
        if Py.truthy_str s && add_series
        then add_element_at book_info "databaseref" s
               [("type", "SeriesID"); ("dbname", dbname md)] root
        else root
    | None => root
    end
  else root.

(** Lines 516-517. *)
Definition write_identifier (md : Metadata) (root : Element) : result Element :=
  match identifier md with
  | Some i =>
      if Py.truthy_str i
      then modify_element ["meta-data"; "publish-info"; "isbn"] i [] false root
      else Ok root
  | None => Ok root
  end.

(** Lines 519-526. *)
Definition write_publisher (md : Metadata) (root : Element) : result Element :=
  let p := ["meta-data"; "publish-info"; "publisher"] in
  match publisher md with
  | Some pub =>
      if negb (Py.truthy_str pub) then Ok (clear_element p root) else
      match imprint md with
      | Some imp =>
          if Py.truthy_str imp
          then modify_element p pub [("imprint", imp)] false root
          else modify_element p pub [] true root
      | None => modify_element p pub [] true root
      end
  | None => Ok (clear_element p root)
  end.

(** [x or 1] for an [int | None]. *)
Definition or_1 (x : option Z) : Z :=
  match x with
  | Some z => if Z.eqb z 0 then 1%Z else z
  | None => 1%Z
  end.

(** Lines 532-536. *)
Definition normalize_year (year : Z) : Z :=
  if (year <? 50)%Z then (2000 + year)%Z
  else if (year <? 100)%Z then (1900 + year)%Z
  else year.

(** Lines 528-538: [pub_date], when [md.year] is truthy. *)
Definition pub_date (md : Metadata) : option string :=
  match year md with
  | Some md_year =>
      if Py.truthy_int (year md)
      then
        let day := or_1 (day md) in
        let month := or_1 (month md) in
        let year := normalize_year md_year in
        Some (String.append (Py.format_0 4 year)
                (String.append "-"
                   (String.append (Py.format_0 2 month)
                      (String.append "-" (Py.format_0 2 day)))))
      else None
  | None => None
  end.

(** Lines 528-539. *)
Definition write_publish_date (md : Metadata) (root : Element)
  : result Element :=
  match pub_date md with
  | Some d =>
      modify_element ["meta-data"; "publish-info"; "publish-date"] d
                     [("value", d)] false root
  | None => Ok root
  end.

(** Lines 543-548. *)
Definition write_notes (md : Metadata) (root : Element) : result Element :=
  match notes md with
  | Some md_notes =>
      if negb (Py.truthy_str md_notes) then Ok root else
      let* (history, root) :=
        get_or_create_element ["meta-data"; "document-info"; "history"] root in
      let notes_split := Py.split md_notes nl in
      let root := upd_at history clear root in
      Ok (fold_left (fun r n => add_element_at history "p" n [] r)
                    notes_split root)
  | None => Ok root
  end.

Definition is_scan (s : Element) : bool :=
  match text s with
  | Some t => Py.truthy_str t && Py.startswith t "[Scan]"
  | None => false
  end.

(** [for s in source: if ...: source.remove(s)]: the loop walks the
    children by index while it removes from them, so the child that
    follows a removed one is stepped over. *)
Fixpoint remove_scan (source : list Element) : list Element :=
  match source with
  | [] => []
  | s :: rest =>
      if is_scan s
      then match rest with
           | [] => []
           | s' :: rest' => s' :: remove_scan rest'
           end
      else s :: remove_scan rest
  end.

(** Lines 550-556. *)
Definition write_scan_info (md : Metadata) (root : Element) : result Element :=
  match scan_info md with
  | Some md_scan_info =>
      if negb (Py.truthy_str md_scan_info) then Ok root else
      let* (source, root) :=
        get_or_create_element ["meta-data"; "document-info"; "source"] root in
      let root :=
        upd_at source (fun e => set_children (remove_scan (children e)) e) root in
      Ok (add_element_at source "p" (String.append "[Scan]" md_scan_info) [] root)
  | None => Ok root
  end.

(** *** Pages (lines 558-602) *)

(** [image = e.find('image')] then [image.get('href')]. *)
Definition href_of (e : Element) : option string :=
  match find_tag "image" e with
  | Some image => get "href" image
  | None => None
  end.

Fixpoint index_of {A : Type} (f : A -> bool) (l : list A) : option nat :=
  match l with
  | [] => None
  | a :: l' => if f a then Some 0 else option_map S (index_of f l')
  end.

(** [sorted(pages, key=lambda x: x.display_index)]; the sort is stable. *)
Fixpoint insert_page (p : PageMetadata.t) (l : list PageMetadata.t)
  : list PageMetadata.t :=
  match l with
  | [] => [p]
  | q :: l' =>
      if (PageMetadata.display_index p <=? PageMetadata.display_index q)%Z
      then p :: l
      else q :: insert_page p l'
  end.

Definition sorted (l : list PageMetadata.t) : list PageMetadata.t :=
  fold_right insert_page [] l.

(** A page element handed to [add_page] is either created by that call or
    is the value [page_dict] holds for a file name.  The elements of
    [page_dict] are detached from the tree by then, and two record pages
    with one file name are given the same element: the element is kept in
    [page_dict], the tree refers to it by its key until the loop ends. *)
Inductive page_ref : Type :=
| Fresh (xml_page : Element)
| Old (href : string).

Record page_state : Type := Build_page_state {
  page_dict : list (string * Element);
  cover : list page_ref;     (* appended to [book_info] *)
  body : list page_ref }.    (* appended to [body_node] *)

(** Lines 246-249: drop the titles whose [lang] is ['en'] or absent. *)
Definition remove_lang_titles (xml_page : Element) : Element :=
  set_children
    (filter (fun t => negb (has_tag "title" t
                            && Py.mem (get_default "lang" "" t) ["en"; ""]))
            (children xml_page))
    xml_page.

(** Lines 244-261 of [add_page]: the element as the call leaves it, from
    the [xml_page] it was given ([None] when there was none). *)
Definition page_element (md : Metadata) (md_page : PageMetadata.t)
           (is_cover : bool) (old_xml_page : option Element) : Element :=
  let bookmark := PageMetadata.bookmark md_page in
  let xml_page :=
    match old_xml_page with
    | Some x => if Py.truthy_str bookmark then remove_lang_titles x else x
    | None =>
        add_element "image" "" [("href", PageMetadata.filename md_page)]
                    (Elem "page" [] None [])
    end in
  let xml_page :=
    if Py.truthy_str bookmark
    then if Py.truthy (language md)
         then add_element "title" bookmark
                [("lang", match language md with Some l => l | None => "" end)]
                xml_page
         else add_element "title" bookmark [] xml_page
    else xml_page in
  if is_cover then set_tag "coverpage" xml_page else xml_page.

(** [add_page(md_page, xml_page, is_cover)], with [xml_page] looked up in
    [page_dict] under [md_page.filename] as line 594 does. *)
Definition add_page (md : Metadata) (md_page : PageMetadata.t) (is_cover : bool)
           (st : page_state) : page_state :=
  let key := PageMetadata.filename md_page in
  let old_xml_page := lookup key (page_dict st) in
  let xml_page := page_element md md_page is_cover old_xml_page in
  let ref := match old_xml_page with Some _ => Old key | None => Fresh xml_page end in
  let dict :=
    match old_xml_page with
    | Some _ => set_item key xml_page (page_dict st)
    | None => page_dict st
    end in
  if is_cover
  then Build_page_state dict (cover st ++ [ref]) (body st)
  else Build_page_state dict (cover st) (body st ++ [ref]).

(** [for i, page in enumerate(md.pages)] *)
Fixpoint add_pages (md : Metadata) (i : nat) (md_pages : list PageMetadata.t)
         (st : page_state) : page_state :=
  match md_pages with
  | [] => st
  | page :: rest => add_pages md (S i) rest (add_page md page (Nat.eqb i 0) st)
  end.

Definition resolve (d : list (string * Element)) (r : page_ref) : list Element :=
  match r with
  | Fresh e => [e]
  | Old k => match lookup k d with Some e => [e] | None => [] end
  end.

(** Lines 559-602: returns the final [page_state] as well. *)
Definition write_pages (md : Metadata) (book_info : loc) (root : Element)
  : result (page_state * Element) :=
  let* (body_node, root) := get_or_create_element ["body"] root in
  let bi_children := children_at book_info root in
  let (dict, root) :=
    match index_of (has_tag "coverpage") bi_children with
    | Some k =>
        (match nth_error bi_children k with
         | Some coverpage =>
             match href_of coverpage with
             | Some href => [(href, set_tag "page" coverpage)]
             | None => []
             end
         | None => []
         end,
         upd_at book_info (remove_child k) root)
    | None => ([], root)
    end in
  let dict :=
    fold_left
      (fun d b =>
         if has_tag "page" b
         then match href_of b with
              | Some href => set_item href b d
              | None => d
              end
         else d)
      (children_at body_node root) dict in
  let root := upd_at body_node (fun b => Elem (tag b) (attrib b) None []) root in
  let st := add_pages md 0 (sorted (pages md)) (Build_page_state dict [] []) in
  let root :=
    upd_at body_node
      (set_children (flat_map (resolve (page_dict st)) (body st))) root in
  let root :=
    upd_at book_info
      (fun e => set_children
                  (children e ++ flat_map (resolve (page_dict st)) (cover st)) e)
      root in
  Ok (st, root).

(** [ET.indent(root)].  When the element made the cover is also a body
    page it is one object in two places: [ET.indent] reaches it last as a
    child of [body], so the copy under [book_info] shows the body's
    indentation. *)
Definition shared_cover (st : page_state) : option Element :=
  match cover st with
  | [Old k] =>
      if existsb (fun r => match r with
                           | Old k' => String.eqb k' k
                           | Fresh _ => false
                           end) (body st)
      then lookup k (page_dict st)
      else None
  | _ => None
  end.

Definition indent_tree (st : page_state) (book_info : loc) (root : Element)
  : Element :=
  let root := indent root in
  match shared_cover st with
  | Some e =>
      upd_at book_info
        (fun b => set_children
                    (upd_nth (len b - 1) (fun _ => indent_at 2 e) (children b)) b)
        root
  | None => root
  end.

(** The record after the call: [md.genres.add('manga')] (line 402) and
    [md.pages = sorted(...)] (line 591) change the caller's record. *)
Definition record_after (md : Metadata) : Metadata :=
  {| is_empty := is_empty md;
     series := series md; issue := issue md; title := title md;
     volume := volume md;
     genres := genres_with_manga md;
     description := description md; notes := notes md;
     publisher := publisher md; imprint := imprint md;
     day := day md; month := month md; year := year md;
     language := language md; web_links := web_links md;
     manga := manga md; maturity_rating := maturity_rating md;
     scan_info := scan_info md; tags := tags md;
     pages := sorted (pages md);
     characters := characters md; teams := teams md;
     locations := locations md;
     credits := credits md; data_origin := data_origin md;
     issue_id := issue_id md; series_id := series_id md;
     identifier := identifier md; rights := rights md |}.

(** [_remove_acbf_xml_namespaces]: [ele.tag.split('}')[1]] raises
    [IndexError] for a tag that opens a brace and never closes it. *)
Definition local_tag (t : string) : result string :=
  if Py.startswith t "{"
  then match Py.split t "}" with
       | _ :: x :: _ => Ok x
       | _ => Raise IndexError
       end
  else Ok t.

Fixpoint _remove_acbf_xml_namespaces (root : Element) : result Element :=
  match root with
  | Elem t a x cs =>
      let* t' := local_tag t in
      let* cs' :=
        (fix each (l : list Element) : result (list Element) :=
           match l with
           | [] => Ok []
           | c :: l' =>
               let* c' := _remove_acbf_xml_namespaces c in
               let* l'' := each l' in
               Ok (c' :: l'')
           end) cs in
      Ok (Elem t' a x cs')
  end.

(** Lines 312-606: the merge proper, from the tree [root] of lines
    303-310 on. *)
Definition merge (md : Metadata) (root : Element) : result Element :=
  let* (book_info, root) := get_or_create_element book_info_path root in
  let root := write_credits md book_info root in
  let* root := write_sequence md book_info root in
  let root := write_title md book_info root in
  let* root := write_genres md book_info root in
  let* root := write_description md book_info root in
  let root := write_web_links md book_info root in
  let root := write_maturity_rating md book_info root in
  let* root := write_keywords md root in
  let* root :=
    write_names ["meta-data"; "book-info"; "characters"] (characters md) root in
  let* root := write_names ["meta-data"; "book-info"; "teams"] (teams md) root in
  let* root :=
    write_names ["meta-data"; "book-info"; "locations"] (locations md) root in
  let root := write_ids md book_info root in
  let* (_, root) := get_or_create_element ["meta-data"; "publish-info"] root in
  let* root := write_identifier md root in
  let* root := write_publisher md root in
  let* root := write_publish_date md root in
  let* root := write_notes md root in
  let* root := write_scan_info md root in
  let* (st, root) := write_pages md book_info root in
  Ok (indent_tree st book_info root).

(** Lines 299-310: the tree to merge into. *)
Definition base_tree (xml : string) : result Element :=
  if Py.truthy_str xml
  then
    let* root := parse xml in
    let* root := _remove_acbf_xml_namespaces root in
    Ok (set "xmlns" ns_url root)
  else Ok (Elem "ACBF" [("xmlns", ns_url)] None []).

Definition _convert_metadata_to_xml (md : Metadata) (xml : string)
  : result Element :=
  let* root := base_tree xml in
  merge md root.


End Merge.

(** ** Read side: [_convert_xml_to_metadata] *)

Section Extract.

Context {api : Comicapi}.

(** [self.namespaces] and the tags accepted for the root. *)
Definition namespaces : list string :=
  ["http://www.acbf.info/xml/acbf/1.1"; "http://www.acbf.info/xml/acbf/1.2"].

Definition acbf_tags : list string :=
  map (fun ns => String.append "{" (String.append ns "}ACBF")) namespaces
      ++ ["ACBF"].

(** [get(name)]: the text of the first descendant called [name]. *)
Definition get_text (root : Element) (name : string) : option string :=
  match find_descendant name root with
  | None => None
  | Some tag => text tag
  end.

(** [get_with_lang(name, lang)] *)
Definition get_with_lang (book_info : option Element) (name : string)
           (lang : string) : option string :=
  match book_info with
  | Some book_info =>
      let tags := findall_tag name book_info in
      match tags with
      | [] => None
      | _ =>
          match List.find
                  (fun tag => match get "lang" tag with
                              | None => true
                              | Some l => String.eqb l lang
                              end) tags with
          | Some tag => text tag
          | None => None
          end
      end
  | None => None
  end.

Definition truthy_texts (l : list Element) : list string :=
  flat_map (fun a => match text a with
                     | Some t => if Py.truthy_str t then [t] else []
                     | None => []
                     end) l.

Definition annotation_to_string (ele : Element) : option string :=
  let anno :=
    if Nat.ltb 0 (len ele) then truthy_texts (children ele)
    else truthy_texts [ele] in
  match anno with
  | [] => None
  | _ => Some (Py.join nlnl anno)
  end.

(** Lines 683-693: [description] walks the annotations with the priority
    no [lang], then ['en'], then whatever came first. *)
Fixpoint read_description (anno : list Element) (description : option string)
  : option string :=
  match anno with
  | [] => description
  | d :: rest =>
      let lang := get_default "lang" "" d in
      if String.eqb lang "" then annotation_to_string d
      else if String.eqb lang "en"
           then read_description rest (annotation_to_string d)
           else match description with
                | None => read_description rest (annotation_to_string d)
                | Some _ => read_description rest description
                end
  end.

(** Lines 649-652. *)
Definition check_root_tag (root : Element) : result unit :=
  if Py.mem (tag root) acbf_tags then Ok tt
  else if Py.endswith (tag root) "}ACBF"
  then Raise (Exception
                (String.append "Unknown ACBF version: "
                   (Py.strip_chars (Py.removesuffix (tag root) "ACBF") "{}")))
  else Raise (Exception "Not an ACBF file").

(** Lines 737-762: the credits, through [md.add_credit]. *)
Definition read_credit (credits : list Credit.t) (n : Element)
  : list Credit.t :=
  let first := find_tag "first-name" n in
  let middle := find_tag "middle-name" n in
  let last := find_tag "last-name" n in
  let nick := find_tag "nickname" n in
  let language := get_default "lang" "" n in
  let text_of (e : option Element) : option string :=
    match e with Some x => text x | None => None end in
  let str_of (e : option Element) : string :=
    match text_of e with Some t => t | None => "" end in
  match get "activity" n with
  | Some role =>
      if negb (Py.truthy_str role) then credits else
      let role :=
        if String.eqb (Py.casefold role) "coverartist" then "Cover" else role in
      if Py.truthy (text_of first) && Py.truthy (text_of last)
      then
        let name :=
          match middle with
          | None => String.append (str_of first)
                      (String.append " " (str_of last))
          | Some m =>
              if Py.truthy (text m)
              then String.append (str_of first)
                     (String.append " "
                        (String.append (str_of middle)
                           (String.append " " (str_of last))))
              else ""
          end in
        add_credit credits name role false language
      else if Py.truthy (text_of nick)
      then add_credit credits (str_of nick) role false language
      else if Py.truthy (text_of first)
      then add_credit credits (str_of first) role false language
      else credits
  | None => credits
  end.

(** Lines 796-805: the bookmark of a page. *)
Fixpoint read_bookmark (titles : list Element) (title : string) : string :=
  match titles with
  | [] => title
  | t :: rest =>
      let lang := get_default "lang" "" t in
      match text t with
      | Some x =>
          if negb (Py.truthy_str x) then read_bookmark rest title
          else if String.eqb lang "" then x
          else if String.eqb lang "en" then read_bookmark rest x
          else if String.eqb title "" then read_bookmark rest x
          else read_bookmark rest title
      | None => read_bookmark rest title
      end
  end.

(** Lines 783-785: [page_file_list]. *)
Fixpoint enumerate_from {A : Type} (i : nat) (l : list A) : list (nat * A) :=
  match l with
  | [] => []
  | a :: l' => (i, a) :: enumerate_from (S i) l'
  end.

Definition page_file_list (file_list : list string) : list (string * nat) :=
  fold_left (fun d x => set_item (snd x) (fst x) d)
            (enumerate_from 0 file_list) [].

(** Lines 792-822: one page. *)
Definition read_page (file_list : list string) (ip : nat * Element)
  : PageMetadata.t :=
  let (i, page) := ip in
  let image := find_tag "image" page in
  let titles := findall_tag "title" page in
  let title := read_bookmark titles "" in
  let filename :=
    match image with
    | Some img => get_default "href" "" img
    | None => ""
    end in
  let archive_index :=
    match lookup filename (page_file_list file_list) with
    | Some k => k
    | None => i
    end in
  PageMetadata.Build filename (Z.of_nat i) (Z.of_nat archive_index) title "".

(** Lines 781-790: the cover first, then the pages of the body. *)
Definition pages_node (root book_info : Element) : list Element :=
  let pages := elems_at (findall ["body"; "page"] root) root in
  match find_tag "coverpage" book_info with
  | Some coverpage => coverpage :: pages
  | None => pages
  end.

(** [s.add(x)] for a set that may hold [None]. *)
Definition set_add_opt (x : option string) (s : list (option string))
  : list (option string) :=
  if existsb (Py.eq_opt x) s then s else s ++ [x].

(** [book_info.findall(container + '/name')], each member's text added. *)
Definition read_names (book_info : Element) (container : string)
  : list (option string) :=
  fold_left (fun s c => set_add_opt (text c) s)
            (elems_at (findall [container; "name"] book_info) book_info) [].

(** Lines 773-778: every child of the first [source] that starts with the
    marker assigns [scan_info] in turn. *)
Definition read_scan_info (root : Element) : option string :=
  match find_descendant "source" root with
  | Some source =>
      if truthy source
      then fold_left
             (fun scan s => if is_scan s
                            then option_map (Py.drop 6) (text s)
                            else scan)
             (children source) None
      else None
  | None => None
  end.

(** Lines 764-771. *)
Definition read_notes (root : Element) : option string :=
  match find_descendant "history" root with
  | Some history =>
      if truthy history
      then Some (Py.join nl (truthy_texts (children history)))
      else None
  | None => None
  end.

(** Lines 677-681: genres and the manga flag. *)
Definition read_genres (book_info : Element) : list string * option string :=
  fold_left
    (fun acc g =>
       match text g with
       | Some t =>
           if Py.truthy_str t
           then (set_add (Py.casefold (Py.replace_char "_" " " t)) (fst acc),
                 if String.eqb (Py.casefold t) "manga" then Some "Yes"
                 else snd acc)
           else acc
       | None => acc
       end)
    (findall_tag "genre" book_info) ([], None).

(** Lines 727-732. *)
Definition read_web_links (book_info : Element) : list Url :=
  flat_map
    (fun dbrefs =>
       match get "type" dbrefs with
       | Some dbtype =>
           if String.eqb (Py.casefold dbtype) "url"
           then [parse_url (text dbrefs)] else []
       | None => []
       end)
    (findall_tag "databaseref" book_info).

(** Lines 710-712: [langs[0][0]] raises when the first [languages] element
    has no child. *)
Definition read_language (book_info : Element) : result (option string) :=
  match findall_tag "languages" book_info with
  | [] => Ok None
  | l0 :: _ =>
      match children l0 with
      | c :: _ => Ok (get "lang" c)
      | [] => Raise IndexError
      end
  end.

(** Lines 700-708. *)
Definition read_date (root : Element)
  : option raw_num * option raw_num * option raw_num :=
  let pub_date := find_descendant "publish-date" root in
  let '(day, month, year) :=
    match pub_date with
    | Some p => parse_date_str (get "value" p)
    | None => (None, None, None)
    end in
  let year :=
    match year with
    | Some y => Some (RInt y)
    | None =>
        match pub_date with
        | Some p =>
            if truthy p && Py.truthy (text p)
            then match text p with
                 | Some t => option_map RStr (Py.match_4_digits t)
                 | None => None
                 end
            else None
        | None => None
        end
    end in
  (option_map RInt day, option_map RInt month, year).

Definition find_elem (p : path) (root : Element) : option Element :=
  match find p root with
  | Some l => get_at l root
  | None => None
  end.

Definition _convert_xml_to_metadata (root : Element) (file_list : list string)
  : result RawMetadata :=
  let* _ := check_root_tag root in
  let* root := _remove_acbf_xml_namespaces root in
  match find_elem ["meta-data"; "book-info"] root with
  | None => Ok empty_md
  | Some book_info =>
      let seq := findall_tag "sequence" book_info in
      let '(md_series, md_volume, md_issue) :=
        match seq with
        | s0 :: _ =>
            (get "title" s0, option_map RStr (get "volume" s0),
             if Py.truthy (text s0) then text s0 else None)
        | [] => (None, None, None)
        end in
      let md_title := xlate (get_with_lang (Some book_info) "book-title" "en") in
      let (md_series, md_title) :=
        match md_series with
        | None => (md_title, None)
        | Some _ => (md_series, md_title)
        end in
      let (md_genres, md_manga) := read_genres book_info in
      let md_description :=
        read_description (findall_tag "annotation" book_info) None in
      let publisher := find_descendant "publisher" root in
      let '(md_day, md_month, md_year) := read_date root in
      let* md_language := read_language book_info in
      Ok {| is_empty := false;
            series := md_series; issue := md_issue; title := md_title;
            volume := md_volume;
            genres := md_genres;
            description := md_description;
            notes := read_notes root;
            publisher :=
              match publisher with Some p => xlate (text p) | None => None end;
            imprint :=
              match publisher with Some p => get "imprint" p | None => None end;
            day := md_day; month := md_month; year := md_year;
            language := md_language;
            web_links := read_web_links book_info;
            manga := md_manga;
            maturity_rating := xlate (get_text root "content-rating");
            scan_info := read_scan_info root;
            tags := set_of_list (split (get_text root "keywords") ",");
            pages :=
              map (read_page file_list)
                  (enumerate_from 0 (pages_node root book_info));
            characters := read_names book_info "characters";
            teams := read_names book_info "teams";
            locations := read_names book_info "locations";
            credits :=
              fold_left read_credit (findall_tag "author" book_info) [];
            data_origin := None;
            issue_id := None; series_id := None;
            identifier := xlate (get_text root "isbn");
            rights := None |}
  end.


(** [_validate_bytes]: [ET.ParseError] is caught, a parsed root is judged
    by the end of its tag. *)
Definition _validate_bytes (string : String.string) : bool :=
  match fromstring string with
  | Some root => Py.endswith (tag root) "ACBF"
  | None => false
  end.

End Extract.

(** ** The archive

    Modelled from the spec: the archive is comicapi's [Archiver], outside
    [acbfxml.py]; section 6 gives its contract (entry names in order, read,
    write and remove by name, support for named files).  An archive is
    the ordered list of its entries; [writable] tells whether
    [write_file] and [remove_file] succeed. *)

Record Archiver : Type := Build_Archiver {
  entries : list (string * string);
  supports_files : bool;
  writable : bool }.

Definition get_filename_list (archive : Archiver) : list string :=
  map fst (entries archive).

Definition read_file (archive : Archiver) (name : string) : string :=
  match lookup name (entries archive) with
  | Some data => data
  | None => ""
  end.


Definition remove_file (archive : Archiver) (name : string) : bool * Archiver :=
  if writable archive
  then (true, Build_Archiver
                (filter (fun e => negb (String.eqb (fst e) name)) (entries archive))
                (supports_files archive) (writable archive))
  else (false, archive).

(** ** The tag adapter (lines 85-127)

    [self.file] is returned next to the result of the methods that set
    it. *)

Section Adapter.

Context {api : Comicapi}.

Definition supports_tags (archive : Archiver) : bool := supports_files archive.

(** Lines 90-94: the first entry name ending in [.acbf]. *)
Definition locate (archive : Archiver) : option string :=
  List.find (fun file => Py.endswith file ".acbf") (get_filename_list archive).

Definition has_tags (archive : Archiver) : option string * bool :=
  let file := locate archive in
  (file,
   match file with
   | Some f =>
       supports_tags archive && _validate_bytes (read_file archive f)
   | None => false
   end).

Definition remove_tags (archive : Archiver) : bool * Archiver :=
  match has_tags archive with
  | (Some f, true) => remove_file archive f
  | _ => (false, archive)
  end.


Definition read_raw_tags (archive : Archiver) : result string :=
  match has_tags archive with
  | (Some f, true) =>
      let* root := parse (read_file archive f) in
      Ok (tostring root)
  | _ => Ok ""
  end.


Definition name : string := "ACBF".

End Adapter.

(** ** A sample instance of the collaborators

    The general theorems hold for every instance of [Comicapi].  The
    sample fixes a simple one, so that the adapter can be run on concrete
    archives and records.  [sample_fromstring] knows the documents listed
    in [sample_documents] and gives each the tree [ET.fromstring] builds
    for it; any other input is a parse error, as it is for the malformed
    document [doc_malformed]. *)

Module Sample.

Definition sample_xlate (data : option string) : option string :=
  match data with
  | Some s => if Py.truthy_str (Py.strip s) then Some s else None
  | None => None
  end.

Definition sample_split (s : option string) (c : string) : list string :=
  match sample_xlate s with
  | Some x =>
      filter Py.truthy_str (map Py.strip (Py.split (Py.strip x) c))
  | None => []
  end.

Definition xlate_int (s : string) : option Z :=
  match Py.int_of_str s with
  | Ok z => Some z
  | Raise _ => None
  end.

Definition sample_parse_date_str (date_str : option string)
  : option Z * option Z * option Z :=
  match date_str with
  | Some d =>
      if negb (Py.truthy_str d) then (None, None, None) else
      match Py.split d "-" with
      | [y] => (None, None, xlate_int y)
      | [y; m] => (None, xlate_int m, xlate_int y)
      | y :: m :: dd :: _ => (xlate_int dd, xlate_int m, xlate_int y)
      | [] => (None, None, None)
      end
  | None => (None, None, None)
  end.

Definition sample_add_credit (credits : list Credit.t) (person role : string)
           (primary : bool) (language : string) : list Credit.t :=
  credits ++ [Credit.Build person role primary language].

Definition doc_unknown_version : string :=
  "<ACBF xmlns='http://www.acbf.info/xml/acbf/2.0'/>".
Definition doc_other_root : string := "<XACBF/>".
Definition doc_comic : string := "<Comic/>".
Definition doc_plain : string := "<ACBF/>".

Definition sample_documents : list (string * Element) :=
  [(doc_unknown_version,
    Elem "{http://www.acbf.info/xml/acbf/2.0}ACBF" [] None []);
   (doc_other_root, Elem "XACBF" [] None []);
   (doc_comic, Elem "Comic" [] None []);
   (doc_plain, Elem "ACBF" [] None [])].

Definition sample_fromstring (data : string) : option Element :=
  lookup data sample_documents.

(** A plain serializer: no escaping, no declaration. *)
Fixpoint sample_tostring (e : Element) : string :=
  match e with
  | Elem t a x cs =>
      let attrs :=
        String.concat ""
          (map (fun kv => String.append " "
                            (String.append (fst kv)
                               (String.append "='"
                                  (String.append (snd kv) "'")))) a) in
      let inner :=
        String.append (match x with Some s => s | None => "" end)
                      (String.concat "" (map sample_tostring cs)) in
      String.append "<"
        (String.append t
           (String.append attrs
              (String.append ">"
                 (String.append inner
                    (String.append "</" (String.append t ">"))))))
  end.

#[export] Instance api : Comicapi := {|
  Url := string;
  url := fun u => u;
  parse_url := fun o => match o with Some s => s | None => "" end;
  writer_synonyms := ["writer"; "plotter"; "scripter"; "script"];
  penciller_synonyms :=
    ["artist"; "penciller"; "penciler"; "breakdowns"; "pencils"; "painting"];
  inker_synonyms := ["inker"; "artist"; "finishes"; "inks"; "painting"];
  colorist_synonyms :=
    ["colorist"; "colourist"; "colorer"; "colourer"; "colors"; "painting"];
  letterer_synonyms := ["letterer"; "letters"];
  cover_synonyms := ["cover"; "covers"; "coverartist"; "cover artist"];
  editor_synonyms := ["editor"; "edits"; "editing"];
  translator_synonyms := ["translator"; "translation"];
  xlate := sample_xlate;
  split := sample_split;
  parse_date_str := sample_parse_date_str;
  get_page_name_list := fun l => l;
  add_credit := sample_add_credit;
  fromstring := sample_fromstring;
  tostring := sample_tostring |}.


End Sample.

(** ** Notions used in the statements *)

(** The tag [_remove_acbf_xml_namespaces] leaves, where it does not raise. *)
Definition local_name (t : string) : string :=
  match local_tag t with
  | Ok x => x
  | Raise _ => t
  end.

Fixpoint strip_namespaces (e : Element) : Element :=
  match e with
  | Elem t a x cs => Elem (local_name t) a x (map strip_namespaces cs)
  end.

(** Every tag of the tree that opens a brace closes it, as the tags the
    parser builds do. *)
Definition tags_closed (root : Element) : Prop :=
  Forall (fun e => is_ok (local_tag (tag e)) = true) (iter root).

(** No tag of the tree is namespace-qualified. *)
Definition plain (root : Element) : Prop :=
  Forall (fun e => Py.startswith (tag e) "{" = false) (iter root).

(** The tree [_convert_metadata_to_xml] starts from when [xml] is empty. *)
Definition fresh_tree : Element := Elem "ACBF" [("xmlns", ns_url)] None [].

(** Number of elements called [t] anywhere in the tree. *)
Definition count_tag (t : string) (root : Element) : nat :=
  length (filter (has_tag t) (iter root)).

(** ** Sample inputs *)

Module Inputs.

Import Sample.

(** A caller's record with every field unset but those given. *)
Definition record (md_series md_issue : option string) (md_year : option Z)
           (md_series_id : option string) (md_pages : list PageMetadata.t)
  : Metadata :=
  {| is_empty := true;
     series := md_series; issue := md_issue; title := None; volume := None;
     genres := []; description := None; notes := None;
     publisher := None; imprint := None;
     day := None; month := None; year := md_year;
     language := None; web_links := [];
     manga := None; maturity_rating := None; scan_info := None;
     tags := []; pages := md_pages;
     characters := []; teams := []; locations := [];
     credits := []; data_origin := None;
     issue_id := None; series_id := md_series_id; identifier := None;
     rights := None |}.

Definition page (filename : string) (display_index : Z) : PageMetadata.t :=
  PageMetadata.Build filename display_index 0 "" "".

(** A version 1.1 document with a body and no [meta-data]. *)
Definition tree_no_book_info : Element :=
  Elem "{http://www.acbf.info/xml/acbf/1.1}ACBF" [] None
       [Elem "{http://www.acbf.info/xml/acbf/1.1}body" [] None []].

(** A document whose [book-info] holds one [sequence]. *)
Definition tree_one_sequence : Element :=
  Elem "ACBF" [("xmlns", ns_url)] None
    [Elem "meta-data" [] None
       [Elem "book-info" [] None
          [Elem "sequence" [("title", "Old Series")] (Some "1") []]]].

(** [book-info] elements with several titles. *)
Definition book_title (lang : option string) (text : string) : Element :=
  Elem "book-title"
       (match lang with Some l => [("lang", l)] | None => [] end)
       (Some text) [].

Definition titles_fr_en : Element :=
  Elem "book-info" [] None
       [book_title (Some "fr") "Titre"; book_title (Some "en") "Title"].
Definition titles_fr : Element :=
  Elem "book-info" [] None [book_title (Some "fr") "Titre"].
Definition titles_plain_en : Element :=
  Elem "book-info" [] None
       [book_title None "Plain"; book_title (Some "en") "Title"].
Definition titles_en_plain : Element :=
  Elem "book-info" [] None
       [book_title (Some "en") "Title"; book_title None "Plain"].


(** A document whose [book-info] holds two [sequence] elements. *)
Definition tree_two_sequences : Element :=
  Elem "ACBF" [("xmlns", ns_url)] None
    [Elem "meta-data" [] None
       [Elem "book-info" [] None
          [Elem "sequence" [("title", "Old Series")] (Some "1") [];
           Elem "sequence" [("title", "Old Series")] (Some "2") []]]].

(** A record with one credit, one genre and a series id. *)
Definition record_with_sets : Metadata :=
  {| is_empty := false;
     series := None; issue := None; title := None; volume := None;
     genres := ["Horror"]; description := None; notes := None;
     publisher := None; imprint := None;
     day := None; month := None; year := None;
     language := None; web_links := [];
     manga := None; maturity_rating := None; scan_info := None;
     tags := []; pages := [];
     characters := []; teams := []; locations := [];
     credits := [Credit.Build "Jane Doe" "Writer" false ""];
     data_origin := None;
     issue_id := None; series_id := Some "4050"; identifier := None;
     rights := None |}.

(** Archives with one page and one [.acbf] entry holding [data]. *)
Definition archive (data : string) : Archiver :=
  Build_Archiver [("page1.jpg", "jpeg"); ("meta.acbf", data)] true true.

End Inputs.

(** ** The tree of a first write

    The shapes the root goes through when a record is written into the
    empty document. *)

(** While the fields of [book-info] are written: [book-info] holds [K]. *)
Definition bi_root (K : list Element) : Element :=
  Elem "ACBF" [("xmlns", ns_url)] None
       [Elem "meta-data" [] None [Elem "book-info" [] None K]].

(** From [publish-info] on: [P] under [publish-info], [D] the later
    children of [meta-data], [B] the later children of the root. *)
Definition info_root (K P D B : list Element) : Element :=
  Elem "ACBF" [("xmlns", ns_url)] None
       (Elem "meta-data" [] None
             (Elem "book-info" [] None K :: Elem "publish-info" [] None P :: D)
        :: B).

(** The location [book_info] stands for in these trees. *)
Definition bi : loc := [0; 0].

(** The children [K] all carry a tag of [ts] and are free of namespaces. *)
Definition children_ok (ts : list string) (K : list Element) : Prop :=
  Forall (fun c => Py.mem (tag c) ts = true /\ plain c) K.

Definition no_child (t : string) (K : list Element) : Prop :=
  Forall (fun c => has_tag t c = false) K.

(** The tags [_convert_metadata_to_xml] gives to children of [book-info]
    before the pages are written. *)
Definition book_info_tags : list string :=
  ["locations"; "teams"; "characters"; "keywords"; "content-rating";
   "databaseref"; "annotation"; "genre"; "book-title"; "sequence"; "author"].

(** The page elements of a first write: no element is reused. *)
Definition fresh_cover `{Comicapi} (md : Metadata)
           (md_pages : list PageMetadata.t) : list Element :=
  match md_pages with
  | p :: _ => [page_element md p true None]
  | [] => []
  end.

Definition fresh_body `{Comicapi} (md : Metadata)
           (md_pages : list PageMetadata.t) : list Element :=
  map (fun p => page_element md p false None) (tl md_pages).

(** The [publish-date] element written for [pub_date md]. *)
Definition publish_date_ok `{Comicapi} (md : Metadata) (P : list Element)
  : Prop :=
  match pub_date md with
  | Some d =>
      exists P0,
        P = P0 ++ [Elem "publish-date" [("value", d)] (Some d) []]
        /\ no_child "publish-date" P0
  | None => no_child "publish-date" P
  end.


(** ** The credit roles the adapter advertises (lines 82-83, 129-144) *)

Section Roles.

Context {api : Comicapi}.

Definition _get_parseable_credits : list string :=
  writer_synonyms ++ penciller_synonyms ++ inker_synonyms
    ++ colorist_synonyms ++ letterer_synonyms ++ cover_synonyms
    ++ editor_synonyms ++ translator_synonyms
    ++ ["adapter"; "photographer"; "assistant editor"; "other"].

Definition supports_credit_role (role : string) : bool :=
  Py.mem (Py.casefold role) _get_parseable_credits.

End Roles.


(** ** The priority among titles, as the comment of line 798 words it

    "priority is lang attrib: None (missing), en, whatever is found":
    the first title without a language; failing that the English one
    (the last, when there are several); failing that the first title.
    Only titles with a text count. *)

Definition title_text (t : Element) : list string :=
  match text t with
  | Some x => if Py.truthy_str x then [x] else []
  | None => []
  end.

Definition titles_in (lang_ok : string -> bool) (titles : list Element)
  : list string :=
  flat_map (fun t => if lang_ok (get_default "lang" "" t)
                     then title_text t else []) titles.

Definition title_by_priority (titles : list Element) : string :=
  match titles_in (fun l => String.eqb l "") titles with
  | x :: _ => x
  | [] =>
      match rev (titles_in (fun l => String.eqb l "en") titles) with
      | x :: _ => x
      | [] =>
          match titles_in (fun _ => true) titles with
          | x :: _ => x
          | [] => ""
          end
      end
  end.

(** The last position of [f] in a list. *)
Fixpoint last_index (f : string) (l : list string) : option nat :=
  match l with
  | [] => None
  | a :: l' =>
      match last_index f l' with
      | Some j => Some (S j)
      | None => if String.eqb a f then Some 0 else None
      end
  end.

(** Two marked paragraphs stand next to each other. *)
Fixpoint adjacent_marked (l : list Element) : bool :=
  match l with
  | a :: ((b :: _) as l') => (is_scan a && is_scan b) || adjacent_marked l'
  | _ => false
  end.

(** A string of exactly [n] decimal digits. *)
Definition digits (n : nat) (s : string) : bool :=
  Nat.eqb (String.length s) n && forallb Py.is_digit (Py.chars s).

(** * Properties *)

(** ** ElementTree facts *)

Lemma Element_ind' (P : Element -> Prop) :
  (forall t a x cs, Forall P cs -> P (Elem t a x cs)) ->
  forall e, P e.
Proof.
  intros step.
  fix IH 1.
  intros [t a x cs].
  apply step.
  induction cs as [|c cs IHcs]; constructor.
  - apply IH.
  - exact IHcs.
Qed.

Lemma Forall_flat_map {A B : Type} (P : B -> Prop) (f : A -> list B) (l : list A) :
  Forall P (flat_map f l) <-> Forall (fun a => Forall P (f a)) l.
Proof.
  induction l as [|a l IH]; simpl.
  - split; constructor.
  - rewrite Forall_app, IH. split.
    + intros [H1 H2]. constructor; assumption.
    + intros H. inversion H; subst. split; assumption.
Qed.

Lemma remove_namespaces_total (root : Element) :
  tags_closed root ->
  _remove_acbf_xml_namespaces root = Ok (strip_namespaces root).
Proof.
  unfold tags_closed.
  induction root as [t a x cs IH] using Element_ind'.
  intros H. simpl in H. inversion H as [|? ? Ht Hcs]; subst.
  simpl in Ht. apply Forall_flat_map in Hcs.
  simpl. unfold local_name.
  destruct (local_tag t) as [t'|err]; [|discriminate]. simpl.
  assert (Hmap :
    (fix each (l : list Element) : result (list Element) :=
       match l with
       | [] => Ok []
       | c :: l' =>
           let* c' := _remove_acbf_xml_namespaces c in
           let* l'' := each l' in
           Ok (c' :: l'')
       end) cs = Ok (map strip_namespaces cs)).
  { clear Ht H. induction cs as [|c cs IHcs]; [reflexivity|].
    inversion IH; subst. inversion Hcs; subst.
    rewrite H1 by assumption. simpl.
    rewrite IHcs by assumption. reflexivity. }
  rewrite Hmap. reflexivity.
Qed.

(** ** Extraction without a [book-info] (C10) *)

(** C10.  A tree whose root tag is [ACBF], plain or qualified by one of
    the two supported namespaces, and which has no [meta-data/book-info]
    once the namespaces are stripped, is extracted to [empty_md], the
    record [GenericMetadata()]: no field is set, the page list is empty
    and [is_empty] is still true. *)
Theorem extract_without_book_info {api : Comicapi}
        (root : Element) (file_list : list string) :
  Py.mem (tag root) acbf_tags = true ->
  tags_closed root ->
  find_elem ["meta-data"; "book-info"] (strip_namespaces root) = None ->
  _convert_xml_to_metadata root file_list = Ok empty_md.
Proof.
  intros Htag Hclosed Hnone.
  unfold _convert_xml_to_metadata, check_root_tag.
  rewrite Htag. simpl.
  rewrite (remove_namespaces_total root Hclosed). simpl.
  rewrite Hnone. reflexivity.
Qed.

Lemma extract_without_book_info_witness :
  _convert_xml_to_metadata (api := Sample.api) Inputs.tree_no_book_info
     ["page1.jpg"] = Ok empty_md.
Proof.
  apply (extract_without_book_info (api := Sample.api)
           Inputs.tree_no_book_info ["page1.jpg"]).
  - reflexivity.
  - unfold tags_closed. simpl. repeat constructor.
  - reflexivity.
Defined.

(** ** Title selection (C6) *)

(** [get_with_lang] answers with the first element, in document order,
    that has no [lang] or has the wanted one, and with [None] when there
    is no such element. *)
Lemma get_with_lang_first (book_info : Element) (name lang : string) :
  get_with_lang (Some book_info) name lang =
  match List.find (fun tag => match get "lang" tag with
                              | None => true
                              | Some l => String.eqb l lang
                              end) (findall_tag name book_info) with
  | Some tag => text tag
  | None => None
  end.
Proof.
  unfold get_with_lang.
  destruct (findall_tag name book_info); reflexivity.
Qed.

(** C6.  [get_with_lang] on four [book-info] elements.  With a French and
    an English title it gives the English one.  With a French title
    alone it gives [None], not the French title.  With an untagged and
    an English title it gives whichever comes first in the document: the
    untagged one when it is first, the English one when that is first. *)
Theorem get_with_lang_on_titles :
  get_with_lang (Some Inputs.titles_fr_en) "book-title" "en" = Some "Title"
  /\ get_with_lang (Some Inputs.titles_fr) "book-title" "en" = None
  /\ get_with_lang (Some Inputs.titles_plain_en) "book-title" "en"
     = Some "Plain"
  /\ get_with_lang (Some Inputs.titles_en_plain) "book-title" "en"
     = Some "Title".
Proof.
  repeat split; reflexivity.
Qed.

(** ** Locating the entry (C7) *)

(** What [has_tags] answering [True] amounts to. *)
Lemma has_tags_true {api : Comicapi} (archive : Archiver) (file : option string) :
  has_tags archive = (file, true) ->
  exists f root,
    file = Some f
    /\ In f (get_filename_list archive)
    /\ Py.endswith f ".acbf" = true
    /\ supports_files archive = true
    /\ fromstring (read_file archive f) = Some root
    /\ Py.endswith (tag root) "ACBF" = true.
Proof.
  unfold has_tags, locate, supports_tags, _validate_bytes.
  intros Heq. injection Heq as Hfile Hval.
  destruct (List.find _ (get_filename_list archive)) as [f|] eqn:Hfind;
    [|discriminate].
  apply find_some in Hfind. destruct Hfind as [Hin Hend].
  apply andb_prop in Hval. destruct Hval as [Hsup Hval].
  destruct (fromstring (read_file archive f)) as [root|] eqn:Hparse;
    [|discriminate].
  exists f, root. repeat split; auto.
Qed.

(** C7.  An archive whose [.acbf] entry is the document [<XACBF/>]:
    the root is not the schema's [ACBF] element (its tag is not among
    [acbf_tags]), yet [has_tags] answers [True], because
    [_validate_bytes] only asks that the tag end in [ACBF].  For the root
    [<Comic/>] the answer is [False]. *)
Theorem has_tags_on_other_root :
  fromstring (Comicapi := Sample.api) Sample.doc_other_root
  = Some (Elem "XACBF" [] None [])
  /\ Py.mem "XACBF" acbf_tags = false
  /\ has_tags (api := Sample.api) (Inputs.archive Sample.doc_other_root)
     = (Some "meta.acbf", true)
  /\ has_tags (api := Sample.api) (Inputs.archive Sample.doc_comic)
     = (Some "meta.acbf", false).
Proof.
  repeat split; reflexivity.
Qed.

(** ** Sequences and database references on a second write (C3, C2) *)

(** C3.  Merging a record with series [New Series], issue [2] into a
    tree with exactly one [sequence] leaves that element as it was and
    appends the new one: [sequence.clear()] empties the list [findall]
    returned, not the element.  Two [sequence] elements result. *)
Theorem merge_with_one_sequence {api : Comicapi} :
  exists root book_info,
    merge (Inputs.record (Some "New Series") (Some "2") None None [])
          Inputs.tree_one_sequence = Ok root
    /\ find_elem ["meta-data"; "book-info"] root = Some book_info
    /\ findall_tag "sequence" book_info
       = [Elem "sequence" [("title", "Old Series")] (Some "1") [];
          Elem "sequence" [("title", "New Series")] (Some "2") []].
Proof.
  eexists. eexists. split; [|split].
  - vm_compute. reflexivity.
  - vm_compute. reflexivity.
  - vm_compute. reflexivity.
Qed.

(** A second write reads the entry back: when the bytes parse to a tree
    that the namespace normalizer turns into [root], the conversion is
    the merge into [root] with [xmlns] set again. *)
Lemma convert_from_parsed {api : Comicapi} (md : Metadata) (xml : string)
      (parsed root : Element) :
  Py.truthy_str xml = true ->
  fromstring xml = Some parsed ->
  _remove_acbf_xml_namespaces parsed = Ok root ->
  _convert_metadata_to_xml md xml = merge md (set "xmlns" ns_url root).
Proof.
  intros Hxml Hparse Hns.
  unfold _convert_metadata_to_xml, base_tree, parse.
  rewrite Hxml, Hparse. cbn [bind]. rewrite Hns. reflexivity.
Qed.

(** C2.  A record whose only field is [series_id = "4050"], written to
    the empty document and then written again into the resulting tree
    (the record as the first call left it): the first tree holds one
    [databaseref], the second two.  The test that would spare the second
    [SeriesID] reference is nested under the test for an issue-id type
    and is never reached. *)
Theorem databaseref_grows_on_second_write {api : Comicapi} :
  let md := Inputs.record None None None (Some "4050") [] in
  exists root1 root2,
    _convert_metadata_to_xml md "" = Ok root1
    /\ merge (record_after md) root1 = Ok root2
    /\ count_tag "databaseref" root1 = 1
    /\ count_tag "databaseref" root2 = 2.
Proof.
  eexists. eexists. split; [|split; [|split]].
  - vm_compute. reflexivity.
  - vm_compute. reflexivity.
  - vm_compute. reflexivity.
  - vm_compute. reflexivity.
Qed.

(** With two [sequence] elements the loop of lines 367-370 runs: the one
    whose text is the record's issue is removed, the other kept, and the
    new one appended. *)
Lemma merge_with_two_sequences {api : Comicapi} :
  exists root book_info,
    merge (Inputs.record (Some "New Series") (Some "2") None None [])
          Inputs.tree_two_sequences = Ok root
    /\ find_elem ["meta-data"; "book-info"] root = Some book_info
    /\ findall_tag "sequence" book_info
       = [Elem "sequence" [("title", "Old Series")] (Some "1") [];
          Elem "sequence" [("title", "New Series")] (Some "2") []].
Proof.
  eexists. eexists. split; [|split].
  - vm_compute. reflexivity.
  - vm_compute. reflexivity.
  - vm_compute. reflexivity.
Qed.

(** On a record with a credit, a genre and a series id, the second write
    keeps one [author] and one [genre] and adds a [databaseref]. *)
Lemma second_write_counts :
  exists root1 root2,
    _convert_metadata_to_xml (api := Sample.api) Inputs.record_with_sets ""
    = Ok root1
    /\ merge (api := Sample.api) (record_after Inputs.record_with_sets) root1
       = Ok root2
    /\ (count_tag "author" root1, count_tag "author" root2) = (1, 1)
    /\ (count_tag "genre" root1, count_tag "genre" root2) = (1, 1)
    /\ (count_tag "databaseref" root1, count_tag "databaseref" root2) = (1, 2).
Proof.
  eexists. eexists. split; [|split; [|split; [|split]]].
  - vm_compute. reflexivity.
  - vm_compute. reflexivity.
  - vm_compute. reflexivity.
  - vm_compute. reflexivity.
  - vm_compute. reflexivity.
Qed.

(** ** Reading an entry that is not a supported document (C4) *)






(** ** What a successful extraction stores *)


(** ** Scan information (C9) *)









(** ** Children, tags and paths *)

Lemma mem_cons (x t : string) (ts : list string) :
  Py.mem x ts = true -> Py.mem x (t :: ts) = true.
Proof.
  unfold Py.mem. simpl. intros Hm. rewrite Hm. apply orb_true_r.
Qed.

Lemma mem_head (t : string) (ts : list string) : Py.mem t (t :: ts) = true.
Proof.
  unfold Py.mem. simpl. rewrite String.eqb_refl. reflexivity.
Qed.

Lemma children_ok_cons (t : string) (ts : list string) (K : list Element) :
  children_ok ts K -> children_ok (t :: ts) K.
Proof.
  unfold children_ok. intros HK.
  eapply Forall_impl; [|exact HK].
  intros c [Hm Hp]. split; [apply mem_cons; exact Hm|exact Hp].
Qed.

Lemma children_ok_app (ts : list string) (K N : list Element) :
  children_ok ts K -> children_ok ts N -> children_ok ts (K ++ N).
Proof.
  unfold children_ok. intros HK HN. apply Forall_app. split; assumption.
Qed.

Lemma children_ok_new (t : string) (ts : list string) (K : list Element)
      (e : Element) :
  children_ok ts K -> tag e = t -> plain e ->
  children_ok (t :: ts) (K ++ [e]).
Proof.
  intros HK Ht Hp. apply children_ok_app.
  - apply children_ok_cons. exact HK.
  - constructor; [|constructor]. split; [|exact Hp].
    rewrite Ht. apply mem_head.
Qed.

Lemma children_ok_no_child (ts : list string) (K : list Element) (t : string) :
  children_ok ts K -> Py.mem t ts = false -> no_child t K.
Proof.
  unfold children_ok, no_child. intros HK Hm.
  eapply Forall_impl; [|exact HK].
  intros c [Hc _]. unfold has_tag.
  destruct (String.eqb (tag c) t) eqn:He; [|reflexivity].
  apply String.eqb_eq in He. rewrite He in Hc. congruence.
Qed.

Lemma select_no_child (i : nat) (t : string) (k : Element -> list loc)
      (K : list Element) :
  no_child t K -> select i t k K = [].
Proof.
  revert i. induction K as [|c K IH]; intros i HK; simpl; [reflexivity|].
  inversion HK as [|? ? Hc HK']; subst.
  rewrite Hc. simpl. apply IH. exact HK'.
Qed.

Lemma select_app (i : nat) (t : string) (k : Element -> list loc)
      (K1 K2 : list Element) :
  select i t k (K1 ++ K2)
  = select i t k K1 ++ select (i + length K1) t k K2.
Proof.
  revert i. induction K1 as [|c K1 IH]; intros i; simpl.
  - rewrite Nat.add_0_r. reflexivity.
  - rewrite IH. rewrite <- app_assoc.
    replace (S i + length K1) with (i + S (length K1)) by lia.
    reflexivity.
Qed.

Lemma filter_out_no_child (t : string) (K : list Element) :
  no_child t K -> filter (fun c => negb (has_tag t c)) K = K.
Proof.
  induction K as [|c K IH]; intros HK; simpl; [reflexivity|].
  inversion HK as [|? ? Hc HK']; subst.
  rewrite Hc. simpl. rewrite IH by exact HK'. reflexivity.
Qed.


Lemma index_of_no_child (t : string) (K : list Element) :
  no_child t K -> index_of (has_tag t) K = None.
Proof.
  induction K as [|c K IH]; intros HK; simpl; [reflexivity|].
  inversion HK as [|? ? Hc HK']; subst.
  rewrite Hc. rewrite IH by exact HK'. reflexivity.
Qed.

Lemma find_tag_no_child (t : string) (e : Element) :
  no_child t (children e) -> find_tag t e = None.
Proof.
  unfold find_tag. induction (children e) as [|c K IH]; intros HK; simpl;
    [reflexivity|].
  inversion HK as [|? ? Hc HK']; subst.
  rewrite Hc. apply IH. exact HK'.
Qed.

Lemma nth_error_end {A : Type} (K : list A) (e : A) :
  nth_error (K ++ [e]) (length K) = Some e.
Proof.
  rewrite nth_error_app2 by lia. rewrite Nat.sub_diag. reflexivity.
Qed.

Lemma upd_nth_end {A : Type} (f : A -> A) (K : list A) (e : A) :
  upd_nth (length K) f (K ++ [e]) = K ++ [f e].
Proof.
  induction K as [|a K IH]; simpl; [reflexivity|].
  rewrite IH. reflexivity.
Qed.

(** ** Trees free of namespaces *)

Lemma plain_node (t : string) (a : list (string * string)) (x : option string)
      (cs : list Element) :
  Py.startswith t "{" = false -> Forall plain cs -> plain (Elem t a x cs).
Proof.
  unfold plain. intros Ht Hcs. simpl. constructor; [exact Ht|].
  apply Forall_flat_map. exact Hcs.
Qed.

Lemma plain_inv (e : Element) :
  plain e -> Py.startswith (tag e) "{" = false /\ Forall plain (children e).
Proof.
  unfold plain. destruct e as [t a x cs]. simpl. intros H.
  inversion H as [|? ? Ht Hcs]; subst. split; [exact Ht|].
  apply Forall_flat_map in Hcs. exact Hcs.
Qed.

Lemma plain_add_element (t text : string) (attribs : list (string * string))
      (e : Element) :
  Py.startswith t "{" = false -> plain e ->
  plain (add_element t text attribs e).
Proof.
  intros Ht He. apply plain_inv in He. destruct He as [Hte Hcs].
  destruct e as [te a x cs]. unfold add_element, append, set_children. simpl in *.
  apply plain_node; [exact Hte|].
  apply Forall_app. split; [exact Hcs|].
  constructor; [|constructor].
  unfold new_element. apply plain_node; [exact Ht|constructor].
Qed.

Lemma plain_leaves (t name : string) (a : list (string * string))
      (x : option string) (texts : list string) (cs : list Element) :
  Py.startswith t "{" = false ->
  Py.startswith name "{" = false ->
  Forall plain cs ->
  plain (fold_left (fun e v => add_element name v [] e) texts (Elem t a x cs)).
Proof.
  intros Ht Hn. revert cs.
  induction texts as [|v texts IH]; intros cs Hcs; simpl.
  - apply plain_node; assumption.
  - unfold add_element at 2, append, set_children. simpl.
    apply IH. apply Forall_app. split; [exact Hcs|].
    constructor; [|constructor].
    unfold new_element. apply plain_node; [exact Hn|constructor].
Qed.

(** ** Writing into the empty document: the fields of [book-info] *)

Section FirstWrite.

Context {api : Comicapi}.

Lemma find_book_info (K : list Element) :
  find book_info_path (bi_root K) = Some bi.
Proof. reflexivity. Qed.

Lemma children_at_book_info (K : list Element) :
  children_at bi (bi_root K) = K.
Proof. reflexivity. Qed.

Lemma append_book_info (e : Element) (K : list Element) :
  upd_at bi (append e) (bi_root K) = bi_root (K ++ [e]).
Proof. reflexivity. Qed.

Lemma add_element_book_info (t text : string) (a : list (string * string))
      (K : list Element) :
  add_element_at bi t text a (bi_root K) = bi_root (K ++ [new_element t text a]).
Proof. reflexivity. Qed.

Lemma set_children_book_info (g : list Element -> list Element)
      (K : list Element) :
  upd_at bi (fun e => set_children (g (children e)) e) (bi_root K)
  = bi_root (g K).
Proof. reflexivity. Qed.

(** Paths below [book-info] find nothing when no child has the tag. *)
Lemma findall_book_info_none (t : string) (K : list Element) :
  no_child t K -> findall ["meta-data"; "book-info"; t] (bi_root K) = [].
Proof.
  intros HK. unfold findall, bi_root. simpl.
  rewrite (select_no_child 0 t _ K HK). reflexivity.
Qed.

Lemma find_book_info_none (t : string) (K : list Element) :
  no_child t K -> find ["meta-data"; "book-info"; t] (bi_root K) = None.
Proof.
  intros HK. unfold find. rewrite findall_book_info_none by exact HK.
  reflexivity.
Qed.

Lemma plain_new_element (t text : string) (a : list (string * string)) :
  Py.startswith t "{" = false -> plain (new_element t text a).
Proof.
  intros Ht. unfold new_element. apply plain_node; [exact Ht|constructor].
Qed.

Lemma author_element_ok (person role : string) (lang : option string)
      (e : Element) :
  author_element person role lang = Some e -> tag e = "author" /\ plain e.
Proof.
  unfold author_element.
  destruct (Py.split_ws person) as [|n1 [|n2 [|n3 rest]]]; simpl;
    try discriminate;
    repeat match goal with
           | |- context [Py.truthy_str ?s] => destruct (Py.truthy_str s); simpl
           end;
    try discriminate;
    destruct lang; intros He; injection He as He; subst e;
    (split; [reflexivity|]);
    unfold plain; simpl; repeat constructor.
Qed.

Lemma children_ok_add (t : string) (ts : list string) (K : list Element)
      (e : Element) :
  Py.mem t ts = true -> children_ok ts K -> tag e = t -> plain e ->
  children_ok ts (K ++ [e]).
Proof.
  intros Hm HK Ht Hp. apply children_ok_app; [exact HK|].
  constructor; [|constructor]. split; [|exact Hp].
  rewrite Ht. exact Hm.
Qed.

Lemma write_credits_fold (md_credits : list Credit.t) (ts : list string)
      (K : list Element) :
  Py.mem "author" ts = true ->
  children_ok ts K ->
  exists K',
    fold_left (write_credit bi) md_credits (bi_root K) = bi_root K'
    /\ children_ok ts K'.
Proof.
  intros Hm. revert K. induction md_credits as [|c cs IH]; intros K HK; simpl.
  - exists K. split; [reflexivity|exact HK].
  - unfold write_credit at 2.
    destruct (credit_activity c) as [activity with_language].
    unfold add_credit_element.
    destruct (author_element _ _ _) as [e|] eqn:He.
    + rewrite append_book_info.
      apply author_element_ok in He. destruct He as [Ht Hp].
      apply IH. apply (children_ok_add "author"); assumption.
    + apply IH. exact HK.
Qed.

(** Lines 314-359 on the empty [book-info]. *)
Lemma write_credits_first (md : Metadata) :
  exists K,
    write_credits md bi (bi_root []) = bi_root K
    /\ children_ok ["author"] K.
Proof.
  unfold write_credits, clear_element. simpl removelast. simpl last.
  change (find ["meta-data"; "book-info"] (bi_root [])) with (Some bi).
  cbv beta iota.
  rewrite set_children_book_info. simpl filter.
  apply write_credits_fold; [reflexivity|constructor].
Qed.

Lemma clear_element_book_info (t : string) (K : list Element) :
  clear_element ["meta-data"; "book-info"; t] (bi_root K)
  = bi_root (filter (fun c => negb (has_tag t c)) K).
Proof. reflexivity. Qed.

Ltac break_match :=
  repeat match goal with
         | |- context [match ?x with _ => _ end] => destruct x eqn:?
         end.

Ltac plain_leaf :=
  unfold plain, set, set_text, set_attrib, set_tag, new_element;
  simpl; repeat constructor.

(** Lines 361-377 when [book-info] has no [sequence] yet. *)
Lemma write_sequence_first (md : Metadata) (ts : list string)
      (K : list Element) :
  children_ok ts K ->
  Py.mem "sequence" ts = false ->
  exists K',
    write_sequence md bi (bi_root K) = Ok (bi_root K')
    /\ children_ok ("sequence" :: ts) K'.
Proof.
  intros HK Hm.
  pose proof (children_ok_no_child ts K "sequence" HK Hm) as Hno.
  unfold write_sequence.
  destruct (series md) as [md_series|];
    [|exists K; split; [reflexivity|apply children_ok_cons; exact HK]].
  destruct (Py.truthy_str md_series); simpl negb; cbv iota;
    [|exists K; split; [reflexivity|apply children_ok_cons; exact HK]].
  rewrite (findall_book_info_none "sequence" K Hno).
  cbn [length Nat.eqb remove_found bind].
  rewrite append_book_info.
  eexists. split; [reflexivity|].
  apply children_ok_new; [exact HK| |]; break_match; try reflexivity; plain_leaf.
Qed.

(** Lines 379-390 when [book-info] has no [book-title] yet. *)
Lemma write_title_first (md : Metadata) (ts : list string) (K : list Element) :
  children_ok ts K ->
  Py.mem "book-title" ts = false ->
  exists K',
    write_title md bi (bi_root K) = bi_root K'
    /\ children_ok ("book-title" :: ts) K'.
Proof.
  intros HK Hm.
  pose proof (children_ok_no_child ts K "book-title" HK Hm) as Hno.
  unfold write_title.
  destruct (title md) as [md_title|];
    [|exists K; split; [reflexivity|apply children_ok_cons; exact HK]].
  destruct (Py.truthy_str md_title); simpl negb; cbv iota;
    [|exists K; split; [reflexivity|apply children_ok_cons; exact HK]].
  rewrite (findall_book_info_none "book-title" K Hno). simpl fold_left.
  rewrite append_book_info.
  eexists. split; [reflexivity|].
  apply children_ok_new; [exact HK| |]; break_match; try reflexivity; plain_leaf.
Qed.

Lemma write_genres_fold (gs : list string) (ts : list string)
      (K : list Element) :
  Py.mem "genre" ts = true ->
  children_ok ts K ->
  exists K',
    fold_result (write_genre bi []) gs (bi_root K) = Ok (bi_root K')
    /\ children_ok ts K'.
Proof.
  intros Hm. revert K. induction gs as [|g gs IH]; intros K HK; simpl.
  - exists K. split; [reflexivity|exact HK].
  - unfold write_genre at 1.
    destruct (Py.mem _ allow_genres).
    + simpl. rewrite add_element_book_info.
      apply IH. apply (children_ok_add "genre"); try assumption.
      * reflexivity.
      * apply plain_new_element. reflexivity.
    + simpl. apply IH. exact HK.
Qed.

(** Lines 392-420 when [book-info] has no [genre] yet. *)
Lemma write_genres_first (md : Metadata) (ts : list string) (K : list Element) :
  children_ok ts K ->
  Py.mem "genre" ts = false ->
  exists K',
    write_genres md bi (bi_root K) = Ok (bi_root K')
    /\ children_ok ("genre" :: ts) K'.
Proof.
  intros HK Hm.
  pose proof (children_ok_no_child ts K "genre" HK Hm) as Hno.
  unfold write_genres.
  rewrite (findall_book_info_none "genre" K Hno).
  rewrite clear_element_book_info.
  rewrite (filter_out_no_child "genre" K Hno).
  change (elems_at [] (bi_root K)) with (@nil Element).
  apply write_genres_fold; [apply mem_head|].
  apply children_ok_cons. exact HK.
Qed.

Lemma SubElement_book_info (e : Element) (K : list Element) :
  SubElement bi e (bi_root K) = ([0; 0; length K], bi_root (K ++ [e])).
Proof. reflexivity. Qed.

Lemma get_at_book_info_child (k : nat) (K : list Element) :
  get_at [0; 0; k] (bi_root K)
  = match nth_error K k with Some c => Some c | None => None end.
Proof. reflexivity. Qed.

Lemma upd_at_book_info_child (k : nat) (f : Element -> Element)
      (K : list Element) :
  upd_at [0; 0; k] f (bi_root K) = bi_root (upd_nth k f K).
Proof. reflexivity. Qed.

Lemma upd_at_book_info_last (f : Element -> Element) (K : list Element)
      (e : Element) :
  upd_at [0; 0; length K] f (bi_root (K ++ [e])) = bi_root (K ++ [f e]).
Proof.
  rewrite upd_at_book_info_child. rewrite upd_nth_end. reflexivity.
Qed.

Lemma findall_book_info_end (t : string) (K : list Element) (e : Element) :
  no_child t K -> tag e = t ->
  findall ["meta-data"; "book-info"; t] (bi_root (K ++ [e]))
  = [[0; 0; length K]].
Proof.
  intros HK Ht. unfold findall, bi_root. simpl.
  rewrite select_app. rewrite (select_no_child 0 t _ K HK).
  simpl. unfold has_tag. rewrite Ht. rewrite String.eqb_refl.
  reflexivity.
Qed.

Lemma fold_add_element_shape (name : string) (vs : list string) (e : Element) :
  tag (fold_left (fun e v => add_element name v [] e) vs e) = tag e
  /\ attrib (fold_left (fun e v => add_element name v [] e) vs e) = attrib e.
Proof.
  revert e. induction vs as [|v vs IH]; intros e; simpl.
  - split; reflexivity.
  - destruct (IH (add_element name v [] e)) as [H1 H2].
    rewrite H1, H2. split; reflexivity.
Qed.

Lemma fold_add_at_last (name : string) (vs : list string) (K : list Element)
      (e : Element) :
  fold_left (fun r v => add_element_at [0; 0; length K] name v [] r) vs
            (bi_root (K ++ [e]))
  = bi_root (K ++ [fold_left (fun e v => add_element name v [] e) vs e]).
Proof.
  revert e. induction vs as [|v vs IH]; intros e; simpl.
  - reflexivity.
  - unfold add_element_at at 2. rewrite upd_at_book_info_last. apply IH.
Qed.

(** Lines 422-455 when [book-info] has no [annotation] yet. *)
Lemma write_description_first (md : Metadata) (ts : list string)
      (K : list Element) :
  children_ok ts K ->
  Py.mem "annotation" ts = false ->
  exists K',
    write_description md bi (bi_root K) = Ok (bi_root K')
    /\ children_ok ("annotation" :: ts) K'.
Proof.
  intros HK Hm.
  pose proof (children_ok_no_child ts K "annotation" HK Hm) as Hno.
  unfold write_description.
  destruct (description md) as [md_description|];
    [|exists K; split; [reflexivity|apply children_ok_cons; exact HK]].
  destruct (Py.truthy_str md_description); simpl negb; cbv iota;
    [|exists K; split; [reflexivity|apply children_ok_cons; exact HK]].
  cbv zeta.
  rewrite (findall_book_info_none "annotation" K Hno).
  change (elems_at [] (bi_root K)) with (@nil Element).
  cbn [existsb].
  rewrite SubElement_book_info.
  set (element := fold_left (fun e t => add_element "p" t [] e)
                            (Py.split md_description nlnl)
                            (Elem "annotation" [] None [])).
  destruct (fold_add_element_shape "p" (Py.split md_description nlnl)
              (Elem "annotation" [] None [])) as [Htag Hattr].
  fold element in Htag, Hattr. simpl in Htag, Hattr.
  assert (Hplain : plain element).
  { apply plain_leaves; [reflexivity|reflexivity|constructor]. }
  destruct (language md) as [md_language|];
    [|eexists; split; [reflexivity|
       apply children_ok_new; [exact HK|exact Htag|exact Hplain]]].
  destruct (Py.truthy_str md_language); simpl negb; cbv iota;
    [|eexists; split; [reflexivity|
       apply children_ok_new; [exact HK|exact Htag|exact Hplain]]].
  rewrite (findall_book_info_end "annotation" K element Hno Htag).
  cbn [List.find].
  rewrite get_at_book_info_child. rewrite nth_error_end.
  unfold get. rewrite Hattr. cbn [lookup Py.eq_opt bind].
  rewrite upd_at_book_info_last.
  eexists. split; [reflexivity|].
  apply children_ok_new; [exact HK| |].
  - unfold set, set_attrib. simpl. exact Htag.
  - apply plain_inv in Hplain. destruct Hplain as [H1 H2].
    unfold set, set_attrib. simpl. apply plain_node; assumption.
Qed.

Lemma children_ok_filter (ts : list string) (f : Element -> bool)
      (K : list Element) :
  children_ok ts K -> children_ok ts (filter f K).
Proof.
  unfold children_ok. intros HK.
  apply Forall_forall. intros c Hc. apply filter_In in Hc.
  destruct Hc as [Hc _]. revert c Hc. apply Forall_forall. exact HK.
Qed.

Lemma write_web_links_fold (d : string) (links : list Url) (ts : list string)
      (K : list Element) :
  Py.mem "databaseref" ts = true ->
  children_ok ts K ->
  exists K',
    fold_left
      (fun r web =>
         add_element_at bi "databaseref" (url web)
           [("type", "URL"); ("dbname", d)] r) links (bi_root K)
    = bi_root K'
    /\ children_ok ts K'.
Proof.
  intros Hm. revert K. induction links as [|w links IH]; intros K HK; simpl.
  - exists K. split; [reflexivity|exact HK].
  - rewrite add_element_book_info. apply IH.
    apply (children_ok_add "databaseref"); try assumption.
    + reflexivity.
    + apply plain_new_element. reflexivity.
Qed.

(** Lines 458-463. *)
Lemma write_web_links_first (md : Metadata) (ts : list string)
      (K : list Element) :
  children_ok ts K ->
  exists K',
    write_web_links md bi (bi_root K) = bi_root K'
    /\ children_ok ("databaseref" :: ts) K'.
Proof.
  intros HK. unfold write_web_links.
  destruct (web_links md) as [|w links] eqn:Hlinks;
    [exists K; split; [reflexivity|apply children_ok_cons; exact HK]|].
  rewrite set_children_book_info.
  apply write_web_links_fold; [apply mem_head|].
  apply children_ok_filter. apply children_ok_cons. exact HK.
Qed.

(** Lines 465-472. *)
Lemma write_maturity_rating_first (md : Metadata) (ts : list string)
      (K : list Element) :
  children_ok ts K ->
  exists K',
    write_maturity_rating md bi (bi_root K) = bi_root K'
    /\ children_ok ("content-rating" :: ts) K'.
Proof.
  intros HK. unfold write_maturity_rating.
  destruct (maturity_rating md) as [rating|];
    [|exists K; split; [reflexivity|apply children_ok_cons; exact HK]].
  destruct (Py.truthy_str rating); simpl negb; cbv iota;
    [|exists K; split; [reflexivity|apply children_ok_cons; exact HK]].
  cbv zeta.
  destruct (existsb _ _);
    [exists K; split; [reflexivity|apply children_ok_cons; exact HK]|].
  rewrite add_element_book_info.
  eexists. split; [reflexivity|].
  apply children_ok_new; [exact HK|reflexivity|].
  apply plain_new_element. reflexivity.
Qed.

Lemma get_or_create_book_info (K : list Element) :
  get_or_create_element ["meta-data"; "book-info"] (bi_root K)
  = Ok (bi, bi_root K).
Proof. reflexivity. Qed.

(** [modify_element] on a child of [book-info] that is not there yet. *)
Lemma modify_element_book_info (t value : string)
      (attribs : list (string * string)) (clear_attribs : bool)
      (K : list Element) :
  no_child t K ->
  modify_element ["meta-data"; "book-info"; t] value attribs clear_attribs
                 (bi_root K)
  = Ok (bi_root (K ++ [Elem t (set_items attribs []) (Some value) []])).
Proof.
  intros HK. unfold modify_element.
  cbn [removelast last].
  rewrite get_or_create_book_info. cbn [bind].
  rewrite (find_book_info_none t K HK).
  rewrite SubElement_book_info.
  rewrite upd_at_book_info_last.
  destruct clear_attribs; reflexivity.
Qed.

(** Lines 474-475 when [book-info] has no [keywords] yet. *)
Lemma write_keywords_first (md : Metadata) (ts : list string)
      (K : list Element) :
  children_ok ts K ->
  Py.mem "keywords" ts = false ->
  exists K',
    write_keywords md (bi_root K) = Ok (bi_root K')
    /\ children_ok ("keywords" :: ts) K'.
Proof.
  intros HK Hm.
  pose proof (children_ok_no_child ts K "keywords" HK Hm) as Hno.
  unfold write_keywords.
  destruct (tags md) as [|t0 rest];
    [exists K; split; [reflexivity|apply children_ok_cons; exact HK]|].
  rewrite (modify_element_book_info "keywords" _ [] false K Hno).
  eexists. split; [reflexivity|].
  apply children_ok_new; [exact HK|reflexivity|].
  apply plain_node; [reflexivity|constructor].
Qed.

(** [get_or_create_element] creates a missing child of [book-info]. *)
Lemma get_or_create_book_info_child (c : string) (K : list Element) :
  no_child c K ->
  get_or_create_element ["meta-data"; "book-info"; c] (bi_root K)
  = Ok ([0; 0; length K], bi_root (K ++ [Elem c [] None []])).
Proof.
  intros HK. unfold get_or_create_element.
  rewrite (find_book_info_none c K HK).
  unfold add_path. cbn [length seq fold_result].
  unfold add_path_step at 1. cbn [firstn nth].
  change (find ["meta-data"] (bi_root K)) with (Some [0]).
  cbn [bind].
  unfold add_path_step at 1. cbn [firstn nth].
  rewrite find_book_info. cbn [bind].
  unfold add_path_step at 1. cbn [firstn nth].
  rewrite (find_book_info_none c K HK).
  rewrite find_book_info. cbn [bind].
  rewrite add_element_book_info.
  unfold find.
  rewrite (findall_book_info_end c K (new_element c "" []) HK eq_refl).
  reflexivity.
Qed.

(** Lines 477-493 when [book-info] has no such container yet. *)
Lemma write_names_first (c : string) (names : list string) (ts : list string)
      (K : list Element) :
  children_ok ts K ->
  Py.mem c ts = false ->
  Py.startswith c "{" = false ->
  exists K',
    write_names ["meta-data"; "book-info"; c] names (bi_root K)
    = Ok (bi_root K')
    /\ children_ok (c :: ts) K'.
Proof.
  intros HK Hm Hc.
  pose proof (children_ok_no_child ts K c HK Hm) as Hno.
  unfold write_names.
  destruct names as [|n0 rest];
    [exists K; split; [reflexivity|apply children_ok_cons; exact HK]|].
  rewrite (get_or_create_book_info_child c K Hno). cbn [bind].
  rewrite upd_at_book_info_last.
  rewrite fold_add_at_last.
  eexists. split; [reflexivity|].
  apply children_ok_new; [exact HK| |].
  - apply (fold_add_element_shape "name" (n0 :: rest)).
  - unfold clear. simpl tag.
    apply plain_leaves; [exact Hc|reflexivity|constructor].
Qed.

(** Lines 495-510. *)
Lemma write_ids_first (md : Metadata) (ts : list string) (K : list Element) :
  Py.mem "databaseref" ts = true ->
  children_ok ts K ->
  exists K',
    write_ids md bi (bi_root K) = bi_root K'
    /\ children_ok ts K'.
Proof.
  intros Hm HK. unfold write_ids.
  destruct (Py.truthy (issue_id md) || Py.truthy (series_id md));
    [|exists K; split; [reflexivity|exact HK]].
  cbv zeta.
  destruct (fold_left _ _ (true, true)) as [add_issue add_series].
  assert (Hnew : forall K0 text a,
             children_ok ts K0 ->
             children_ok ts (K0 ++ [new_element "databaseref" text a])).
  { intros K0 text a HK0.
    apply (children_ok_add "databaseref"); try assumption.
    - reflexivity.
    - apply plain_new_element. reflexivity. }
  destruct (issue_id md) as [i|]; [destruct (Py.truthy_str i && add_issue)|];
    (destruct (series_id md) as [s|];
     [destruct (Py.truthy_str s && add_series)|]);
    rewrite ?add_element_book_info;
    eexists; (split; [reflexivity|]); auto.
Qed.

(** *** [publish-info] *)

Lemma get_or_create_publish_info (K : list Element) :
  get_or_create_element ["meta-data"; "publish-info"] (bi_root K)
  = Ok ([0; 1], info_root K [] [] []).
Proof. reflexivity. Qed.

Lemma findall_publish_info_none (t : string) (K P : list Element) :
  no_child t P ->
  findall ["meta-data"; "publish-info"; t] (info_root K P [] []) = [].
Proof.
  intros HP. unfold findall, info_root. simpl.
  rewrite (select_no_child 0 t _ P HP). reflexivity.
Qed.

Lemma modify_element_publish_info (t value : string)
      (attribs : list (string * string)) (clear_attribs : bool)
      (K P : list Element) :
  no_child t P ->
  modify_element ["meta-data"; "publish-info"; t] value attribs clear_attribs
                 (info_root K P [] [])
  = Ok (info_root K (P ++ [Elem t (set_items attribs []) (Some value) []])
                  [] []).
Proof.
  intros HP. unfold modify_element.
  cbn [removelast last].
  change (get_or_create_element ["meta-data"; "publish-info"]
                                (info_root K P [] []))
    with (Ok ([0; 1], info_root K P [] [])).
  cbn [bind].
  unfold find. rewrite (findall_publish_info_none t K P HP).
  cbn [hd_error].
  change (SubElement [0; 1] (Elem t [] None []) (info_root K P [] []))
    with ([0; 1; length P], info_root K (P ++ [Elem t [] None []]) [] []).
  cbv iota beta.
  change (upd_at [0; 1; length P] ?f
                 (info_root K (P ++ [Elem t [] None []]) [] []))
    with (info_root K (upd_nth (length P) f (P ++ [Elem t [] None []])) [] []).
  rewrite upd_nth_end.
  destruct clear_attribs; reflexivity.
Qed.

Lemma no_child_add (t u : string) (P : list Element) (e : Element) :
  no_child t P -> tag e = u -> String.eqb u t = false ->
  no_child t (P ++ [e]).
Proof.
  unfold no_child. intros HP Hu Hne. apply Forall_app. split; [exact HP|].
  constructor; [|constructor]. unfold has_tag. rewrite Hu. exact Hne.
Qed.

(** Lines 514-539 on the new [publish-info]. *)
Lemma write_publish_info_first (md : Metadata) (K : list Element) :
  exists P,
    (let* root := write_identifier md (info_root K [] [] []) in
     let* root := write_publisher md root in
     write_publish_date md root)
    = Ok (info_root K P [] [])
    /\ publish_date_ok md P
    /\ Forall plain P.
Proof.
  assert (H1 : exists P1,
             write_identifier md (info_root K [] [] [])
             = Ok (info_root K P1 [] [])
             /\ no_child "publisher" P1 /\ no_child "publish-date" P1
             /\ Forall plain P1).
  { unfold write_identifier.
    destruct (identifier md) as [i|];
      [destruct (Py.truthy_str i)|];
      try (exists []; repeat split; constructor).
    rewrite modify_element_publish_info by constructor.
    eexists. split; [reflexivity|]. simpl.
    repeat split; repeat constructor. }
  destruct H1 as [P1 [E1 [Hpub1 [Hdate1 Hplain1]]]].
  rewrite E1. cbn [bind].
  assert (H2 : exists P2,
             write_publisher md (info_root K P1 [] [])
             = Ok (info_root K P2 [] [])
             /\ no_child "publish-date" P2 /\ Forall plain P2).
  { assert (Hclear :
      clear_element ["meta-data"; "publish-info"; "publisher"]
                    (info_root K P1 [] [])
      = info_root K P1 [] []).
    { unfold clear_element. cbn [removelast last].
      change (find ["meta-data"; "publish-info"] (info_root K P1 [] []))
        with (Some [0; 1]).
      cbv iota.
      change (upd_at [0; 1] ?f (info_root K P1 [] []))
        with (info_root K (children (f (Elem "publish-info" [] None P1)))
                        [] []).
      cbn [children set_children].
      rewrite (filter_out_no_child "publisher" P1 Hpub1). reflexivity. }
    assert (Hmod : forall a c,
      exists P2,
        modify_element ["meta-data"; "publish-info"; "publisher"]
                       (match publisher md with Some p => p | None => "" end)
                       a c (info_root K P1 [] [])
        = Ok (info_root K P2 [] [])
        /\ no_child "publish-date" P2 /\ Forall plain P2).
    { intros a c.
      rewrite (modify_element_publish_info "publisher" _ a c K P1 Hpub1).
      eexists. split; [reflexivity|]. split.
      - apply (no_child_add _ "publisher"); [exact Hdate1|reflexivity|reflexivity].
      - apply Forall_app. split; [exact Hplain1|].
        constructor; [|constructor].
        apply plain_node; [reflexivity|constructor]. }
    unfold write_publisher. cbv zeta.
    destruct (publisher md) as [pub|];
      [|rewrite Hclear; exists P1; repeat split; assumption].
    destruct (Py.truthy_str pub); simpl negb; cbv iota;
      [|rewrite Hclear; exists P1; repeat split; assumption].
    destruct (imprint md) as [imp|]; [destruct (Py.truthy_str imp)|];
      apply Hmod. }
  destruct H2 as [P2 [E2 [Hdate2 Hplain2]]].
  rewrite E2. cbn [bind].
  unfold write_publish_date, publish_date_ok.
  destruct (pub_date md) as [d|].
  - rewrite (modify_element_publish_info "publish-date" d _ false K P2 Hdate2).
    eexists. split; [reflexivity|]. split.
    + exists P2. split; [reflexivity|exact Hdate2].
    + apply Forall_app. split; [exact Hplain2|].
      constructor; [|constructor].
      apply plain_node; [reflexivity|constructor].
  - exists P2. repeat split; assumption.
Qed.

(** *** [document-info] *)

Lemma upd_at_doc_last (f : Element -> Element) (K P H : list Element)
      (e : Element) :
  upd_at [0; 2; length H] f
         (info_root K P [Elem "document-info" [] None (H ++ [e])] [])
  = info_root K P [Elem "document-info" [] None (H ++ [f e])] [].
Proof.
  unfold info_root. cbn [upd_at upd_nth set_children children tag attrib text].
  rewrite upd_nth_end. reflexivity.
Qed.

Lemma fold_add_at_doc (name : string) (vs : list string) (K P H : list Element)
      (e : Element) :
  fold_left (fun r v => add_element_at [0; 2; length H] name v [] r) vs
            (info_root K P [Elem "document-info" [] None (H ++ [e])] [])
  = info_root K P
      [Elem "document-info" [] None
            (H ++ [fold_left (fun e v => add_element name v [] e) vs e])] [].
Proof.
  revert e. induction vs as [|v vs IH]; intros e; simpl.
  - reflexivity.
  - unfold add_element_at at 2. rewrite upd_at_doc_last. apply IH.
Qed.

(** Lines 543-548 on a tree without [document-info]. *)
Lemma write_notes_first (md : Metadata) (K P : list Element) :
  exists D,
    write_notes md (info_root K P [] []) = Ok (info_root K P D [])
    /\ (D = []
        \/ exists h, D = [Elem "document-info" [] None [h]]
                     /\ tag h = "history" /\ plain h).
Proof.
  unfold write_notes.
  destruct (notes md) as [md_notes|];
    [|exists []; split; [reflexivity|left; reflexivity]].
  destruct (Py.truthy_str md_notes); simpl negb; cbv iota;
    [|exists []; split; [reflexivity|left; reflexivity]].
  change (get_or_create_element ["meta-data"; "document-info"; "history"]
                                (info_root K P [] []))
    with (Ok ([0; 2; 0],
              info_root K P
                [Elem "document-info" [] None
                      ([] ++ [Elem "history" [] None []])] [])).
  cbn [bind]. cbv zeta.
  change [0; 2; 0] with [0; 2; length (@nil Element)].
  rewrite upd_at_doc_last.
  rewrite fold_add_at_doc.
  eexists. split; [reflexivity|].
  right. eexists. split; [reflexivity|]. split.
  - apply (fold_add_element_shape "p").
  - unfold clear. simpl tag.
    apply plain_leaves; [reflexivity|reflexivity|constructor].
Qed.

(** Lines 550-556 after [write_notes]. *)
Lemma write_scan_info_first (md : Metadata) (K P D : list Element) :
  (D = []
   \/ exists h, D = [Elem "document-info" [] None [h]]
                /\ tag h = "history" /\ plain h) ->
  exists D',
    write_scan_info md (info_root K P D []) = Ok (info_root K P D' [])
    /\ Forall plain D'.
Proof.
  intros HD.
  assert (HplainD : Forall plain D).
  { destruct HD as [HD|[h [HD [Ht Hp]]]]; subst D; [constructor|].
    constructor; [|constructor].
    apply plain_node; [reflexivity|]. constructor; [exact Hp|constructor]. }
  unfold write_scan_info.
  destruct (scan_info md) as [md_scan_info|];
    [|exists D; split; [reflexivity|exact HplainD]].
  destruct (Py.truthy_str md_scan_info); simpl negb; cbv iota;
    [|exists D; split; [reflexivity|exact HplainD]].
  assert (Hcreate : exists H,
    get_or_create_element ["meta-data"; "document-info"; "source"]
                          (info_root K P D [])
    = Ok ([0; 2; length H],
          info_root K P
            [Elem "document-info" [] None (H ++ [Elem "source" [] None []])] [])
    /\ Forall plain H).
  { destruct HD as [HD|[h [HD [Ht Hp]]]]; subst D.
    - exists []. split; [reflexivity|constructor].
    - exists [h]. split; [|constructor; [exact Hp|constructor]].
      destruct h as [t a x cs]. simpl in Ht. subst t. reflexivity. }
  destruct Hcreate as [H [Hc HplainH]].
  rewrite Hc. cbn [bind]. cbv zeta.
  rewrite upd_at_doc_last. unfold add_element_at. rewrite upd_at_doc_last.
  eexists. split; [reflexivity|].
  constructor; [|constructor].
  apply plain_node; [reflexivity|].
  apply Forall_app. split; [exact HplainH|].
  constructor; [|constructor].
  cbn [children set_children remove_scan].
  apply plain_add_element; [reflexivity|].
  apply plain_node; [reflexivity|constructor].
Qed.

(** *** Pages *)

Lemma add_pages_fresh_rest (md : Metadata) (ps : list PageMetadata.t)
      (i : nat) (c b : list page_ref) :
  add_pages md (S i) ps (Build_page_state [] c b)
  = Build_page_state [] c
      (b ++ map (fun p => Fresh (page_element md p false None)) ps).
Proof.
  revert i b. induction ps as [|p ps IH]; intros i b; simpl.
  - rewrite app_nil_r. reflexivity.
  - unfold add_page. simpl. rewrite IH. rewrite <- app_assoc. reflexivity.
Qed.

Lemma add_pages_fresh (md : Metadata) (ps : list PageMetadata.t) :
  add_pages md 0 ps (Build_page_state [] [] [])
  = Build_page_state [] (map Fresh (fresh_cover md ps))
                     (map Fresh (fresh_body md ps)).
Proof.
  destruct ps as [|p ps]; simpl; [reflexivity|].
  unfold add_page. simpl. rewrite add_pages_fresh_rest.
  unfold fresh_body. simpl. rewrite map_map. reflexivity.
Qed.

Lemma resolve_fresh (d : list (string * Element)) (l : list Element) :
  flat_map (resolve d) (map Fresh l) = l.
Proof.
  induction l as [|e l IH]; simpl; [reflexivity|].
  rewrite IH. reflexivity.
Qed.

(** Lines 558-602 on a tree whose [book-info] has no [coverpage] and
    which has no [body]. *)
Lemma write_pages_first (md : Metadata) (ts : list string)
      (K P D : list Element) :
  children_ok ts K ->
  Py.mem "coverpage" ts = false ->
  write_pages md bi (info_root K P D [])
  = Ok (Build_page_state [] (map Fresh (fresh_cover md (sorted (pages md))))
                         (map Fresh (fresh_body md (sorted (pages md)))),
        info_root (K ++ fresh_cover md (sorted (pages md))) P D
                  [Elem "body" [] None (fresh_body md (sorted (pages md)))]).
Proof.
  intros HK Hm.
  pose proof (children_ok_no_child ts K "coverpage" HK Hm) as Hno.
  unfold write_pages.
  change (get_or_create_element ["body"] (info_root K P D []))
    with (Ok ([1], info_root K P D [Elem "body" [] None []])).
  cbn [bind]. cbv zeta.
  change (children_at bi (info_root K P D [Elem "body" [] None []])) with K.
  rewrite (index_of_no_child "coverpage" K Hno).
  change (children_at [1] (info_root K P D [Elem "body" [] None []]))
    with (@nil Element).
  cbn [fold_left].
  rewrite add_pages_fresh.
  cbn [page_dict body cover].
  rewrite !resolve_fresh.
  reflexivity.
Qed.

Lemma shared_cover_fresh (md : Metadata) (ps : list PageMetadata.t)
      (b : list page_ref) :
  shared_cover (Build_page_state [] (map Fresh (fresh_cover md ps)) b) = None.
Proof.
  destruct ps; reflexivity.
Qed.

(** *** The whole first write *)

(** Writing a record into the empty document returns, and the tree has
    this shape. *)
Lemma merge_first_write (md : Metadata) :
  exists K P D,
    merge md fresh_tree
    = Ok (indent
            (info_root (K ++ fresh_cover md (sorted (pages md))) P D
               [Elem "body" [] None (fresh_body md (sorted (pages md)))]))
    /\ children_ok book_info_tags K
    /\ publish_date_ok md P
    /\ Forall plain P
    /\ Forall plain D.
Proof.
  unfold merge.
  change (get_or_create_element book_info_path fresh_tree)
    with (Ok (bi, bi_root [])).
  cbn [bind].
  destruct (write_credits_first md) as [K1 [E1 H1]]. rewrite E1.
  destruct (write_sequence_first md _ K1 H1 eq_refl) as [K2 [E2 H2]].
  rewrite E2. cbn [bind].
  destruct (write_title_first md _ K2 H2 eq_refl) as [K3 [E3 H3]].
  rewrite E3.
  destruct (write_genres_first md _ K3 H3 eq_refl) as [K4 [E4 H4]].
  rewrite E4. cbn [bind].
  destruct (write_description_first md _ K4 H4 eq_refl) as [K5 [E5 H5]].
  rewrite E5. cbn [bind].
  destruct (write_web_links_first md _ K5 H5) as [K6 [E6 H6]].
  rewrite E6.
  destruct (write_maturity_rating_first md _ K6 H6) as [K7 [E7 H7]].
  rewrite E7.
  destruct (write_keywords_first md _ K7 H7 eq_refl) as [K8 [E8 H8]].
  rewrite E8. cbn [bind].
  destruct (write_names_first "characters" (characters md) _ K8 H8
              eq_refl eq_refl) as [K9 [E9 H9]].
  rewrite E9. cbn [bind].
  destruct (write_names_first "teams" (teams md) _ K9 H9
              eq_refl eq_refl) as [K10 [E10 H10]].
  rewrite E10. cbn [bind].
  destruct (write_names_first "locations" (locations md) _ K10 H10
              eq_refl eq_refl) as [K11 [E11 H11]].
  rewrite E11. cbn [bind].
  destruct (write_ids_first md book_info_tags K11 eq_refl H11)
    as [K12 [E12 H12]].
  rewrite E12.
  rewrite get_or_create_publish_info. cbn [bind].
  destruct (write_publish_info_first md K12) as [P [EP [HP1 HP2]]].
  cbn [bind] in EP.
  destruct (write_identifier md (info_root K12 [] [] [])) as [r1|];
    [|discriminate].
  cbn [bind] in EP |- *.
  destruct (write_publisher md r1) as [r2|]; [|discriminate].
  cbn [bind] in EP |- *.
  rewrite EP. cbn [bind].
  destruct (write_notes_first md K12 P) as [D1 [ED1 HD1]].
  rewrite ED1. cbn [bind].
  destruct (write_scan_info_first md K12 P D1 HD1) as [D [ED HD]].
  rewrite ED. cbn [bind].
  rewrite (write_pages_first md _ K12 P D H12 eq_refl). cbn [bind].
  unfold indent_tree. rewrite shared_cover_fresh.
  exists K12, P, D. repeat split; assumption.
Qed.

End FirstWrite.

(** ** [ET.indent] keeps tags, attributes and structure *)

Lemma indent_at_tag (n : nat) (e : Element) : tag (indent_at n e) = tag e.
Proof. destruct e as [t a x [|c cs]]; reflexivity. Qed.

Lemma indent_at_attrib (n : nat) (e : Element) :
  attrib (indent_at n e) = attrib e.
Proof. destruct e as [t a x [|c cs]]; reflexivity. Qed.

Lemma indent_at_children (n : nat) (e : Element) :
  children (indent_at n e) = map (indent_at (S n)) (children e).
Proof. destruct e as [t a x [|c cs]]; reflexivity. Qed.

Lemma indent_at_leaf (n : nat) (e : Element) :
  children e = [] -> indent_at n e = e.
Proof. destruct e as [t a x [|c cs]]; [reflexivity|discriminate]. Qed.

Lemma select_indent (m i : nat) (t : string) (k k' : Element -> list loc)
      (cs : list Element) :
  (forall c, k' (indent_at m c) = k c) ->
  select i t k' (map (indent_at m) cs) = select i t k cs.
Proof.
  intros Hk. revert i. induction cs as [|c cs IH]; intros i; simpl.
  - reflexivity.
  - unfold has_tag. rewrite indent_at_tag. rewrite Hk. rewrite IH.
    reflexivity.
Qed.

Lemma iterfind_indent (p : list string) (n : nat) (e : Element) :
  iterfind p (indent_at n e) = iterfind p e.
Proof.
  revert n e. induction p as [|t p IH]; intros n e; simpl.
  - reflexivity.
  - rewrite indent_at_children. apply select_indent.
    intros c. apply IH.
Qed.

Lemma find_indent (p : list string) (n : nat) (e : Element) :
  find p (indent_at n e) = find p e.
Proof.
  unfold find, findall. destruct p; [reflexivity|].
  rewrite iterfind_indent. reflexivity.
Qed.

Lemma get_at_indent (l : loc) (n : nat) (e : Element) :
  get_at l (indent_at n e)
  = option_map (indent_at (n + length l)) (get_at l e).
Proof.
  revert n e. induction l as [|i l IH]; intros n e; simpl.
  - rewrite Nat.add_0_r. reflexivity.
  - rewrite indent_at_children. rewrite nth_error_map.
    destruct (nth_error (children e) i) as [c|]; simpl; [|reflexivity].
    rewrite IH. replace (S n + length l) with (n + S (length l)) by lia.
    reflexivity.
Qed.


(** ** The publish date (C8) *)

Section PublishDate.

Context {api : Comicapi}.

Lemma convert_empty_xml (md : Metadata) :
  _convert_metadata_to_xml md "" = merge md fresh_tree.
Proof. reflexivity. Qed.

Lemma find_publish_date (K P0 D B : list Element) (pd : Element) :
  no_child "publish-date" P0 ->
  tag pd = "publish-date" ->
  find ["meta-data"; "publish-info"; "publish-date"]
       (info_root K (P0 ++ [pd]) D B)
  = Some [0; 1; length P0].
Proof.
  intros HP Ht. unfold find, findall, info_root. simpl.
  rewrite select_app. rewrite (select_no_child 0 _ _ P0 HP).
  simpl. unfold has_tag. rewrite Ht. reflexivity.
Qed.

Lemma pub_date_of_year (md : Metadata) (y : Z) :
  year md = Some y -> y <> 0%Z ->
  pub_date md
  = Some (String.append (Py.format_0 4 (normalize_year y))
            (String.append "-"
               (String.append (Py.format_0 2 (or_1 (month md)))
                  (String.append "-" (Py.format_0 2 (or_1 (day md))))))).
Proof.
  intros Hy Hnz. unfold pub_date. rewrite Hy.
  unfold Py.truthy_int.
  destruct (Z.eqb y 0) eqn:He; [apply Z.eqb_eq in He; contradiction|].
  reflexivity.
Qed.

(** The claim fails for the year 0, which is not [None]: [if md.year:]
    is false for it and no [publish-date] is written. *)
Lemma publish_date_skipped_for_year_0 :
  exists root,
    _convert_metadata_to_xml (api := Sample.api)
      (Inputs.record None None (Some 0%Z) None []) "" = Ok root
    /\ find_elem ["meta-data"; "publish-info"; "publish-date"] root = None.
Proof.
  eexists. split.
  - vm_compute. reflexivity.
  - reflexivity.
Qed.

(** C8, amended.  For every record whose year is neither [None] nor 0,
    writing it into the empty document leaves a [publish-date] element
    whose text and whose [value] attribute are the same string
    [YYYY-MM-DD]: the year normalized (below 50 plus 2000, from 50 to 99
    plus 1900) and padded to four digits, month and day (1 when unset)
    padded to two.  The normalization gives 5 -> 2005, 49 -> 2049,
    50 -> 1950, 99 -> 1999, 2012 -> 2012. *)
Theorem publish_date_written (md : Metadata) (y : Z) :
  year md = Some y ->
  y <> 0%Z ->
  let d := String.append (Py.format_0 4 (normalize_year y))
             (String.append "-"
                (String.append (Py.format_0 2 (or_1 (month md)))
                   (String.append "-" (Py.format_0 2 (or_1 (day md)))))) in
  (exists root e,
      _convert_metadata_to_xml md "" = Ok root
      /\ find_elem ["meta-data"; "publish-info"; "publish-date"] root = Some e
      /\ text e = Some d
      /\ get "value" e = Some d)
  /\ normalize_year 5 = 2005%Z
  /\ normalize_year 49 = 2049%Z
  /\ normalize_year 50 = 1950%Z
  /\ normalize_year 99 = 1999%Z
  /\ normalize_year 2012 = 2012%Z.
Proof.
  intros Hy Hnz d.
  split; [|repeat split; reflexivity].
  rewrite convert_empty_xml.
  destruct (merge_first_write md) as [K [P [D [Hmerge [_ [Hdate _]]]]]].
  unfold publish_date_ok in Hdate.
  rewrite (pub_date_of_year md y Hy Hnz) in Hdate. fold d in Hdate.
  destruct Hdate as [P0 [HP Hno]]. subst P.
  eexists. eexists. split; [exact Hmerge|].
  unfold find_elem, indent. rewrite find_indent.
  rewrite (find_publish_date _ P0 D _
             (Elem "publish-date" [("value", d)] (Some d) []) Hno eq_refl).
  rewrite get_at_indent.
  unfold info_root. cbn [get_at children nth_error].
  rewrite nth_error_end. cbn [option_map].
  split; [reflexivity|]. split; reflexivity.
Qed.

End PublishDate.

Lemma publish_date_written_witness :
  exists root e,
    _convert_metadata_to_xml (api := Sample.api)
      (Inputs.record None None (Some 5%Z) None []) "" = Ok root
    /\ find_elem ["meta-data"; "publish-info"; "publish-date"] root = Some e
    /\ text e = Some "2005-01-01"
    /\ get "value" e = Some "2005-01-01".
Proof.
  apply (publish_date_written (api := Sample.api)
           (Inputs.record None None (Some 5%Z) None []) 5%Z).
  - reflexivity.
  - discriminate.
Defined.

(** ** Writing over an entry that does not parse (C5) *)




(** ** The page order *)



Lemma length_insert_page (p : PageMetadata.t) (l : list PageMetadata.t) :
  length (insert_page p l) = S (length l).
Proof.
  induction l as [|a l IH]; simpl; [reflexivity|].
  destruct (PageMetadata.display_index p <=? PageMetadata.display_index a)%Z;
    simpl; [reflexivity|].
  rewrite IH. reflexivity.
Qed.

Lemma length_sorted (l : list PageMetadata.t) : length (sorted l) = length l.
Proof.
  induction l as [|a l IH]; simpl; [reflexivity|].
  rewrite length_insert_page, IH. reflexivity.
Qed.




(** ** Cover reconciliation (C1) *)

Section Cover.

Context {api : Comicapi}.






















End Cover.


(** The page at index 0 has to be the only one there: of two pages with
    [display_index] 0 the stable sort puts the first of the list in
    front, and that one becomes the cover. *)
Lemma cover_on_equal_indices :
  exists root coverpage,
    _convert_metadata_to_xml (api := Sample.api)
      (Inputs.record None None None None
         [Inputs.page "a.jpg" 0; Inputs.page "cover.jpg" 0]) "" = Ok root
    /\ find_elem ["meta-data"; "book-info"; "coverpage"] root = Some coverpage
    /\ href_of coverpage = Some "a.jpg".
Proof.
  eexists. eexists. split; [|split].
  - vm_compute. reflexivity.
  - vm_compute. reflexivity.
  - reflexivity.
Qed.

(** * Further properties of the adapter *)

(** ** Credit roles *)

Section RoleProperties.

Context {api : Comicapi}.


Lemma mem_app (x : string) (l1 l2 : list string) :
  Py.mem x (l1 ++ l2) = Py.mem x l1 || Py.mem x l2.
Proof. unfold Py.mem. apply existsb_app. Qed.

(** A role the adapter advertises through [supports_credit_role], other
    than [other] itself, is never written as [Other]. *)
Theorem supported_role_has_activity (credit : Credit.t) :
  supports_credit_role (Credit.role credit) = true ->
  Py.casefold (Credit.role credit) <> "other" ->
  fst (credit_activity credit) <> "Other".
Proof.
  unfold supports_credit_role, _get_parseable_credits, credit_activity.
  set (role := Py.casefold (Credit.role credit)).
  rewrite !mem_app. intros Hsup Hother.
  destruct (Py.mem role writer_synonyms); [discriminate|].
  destruct (Py.mem role ["adapter"]) eqn:Had; [discriminate|].
  destruct (Py.mem role ["artist"]); [discriminate|].
  destruct (Py.mem role penciller_synonyms); [discriminate|].
  destruct (Py.mem role inker_synonyms); [discriminate|].
  destruct (Py.mem role colorist_synonyms); [discriminate|].
  destruct (Py.mem role ["photographer"; "photo"]) eqn:Hph; [discriminate|].
  destruct (Py.mem role letterer_synonyms); [discriminate|].
  destruct (Py.mem role cover_synonyms); [discriminate|].
  destruct (Py.mem role editor_synonyms); [discriminate|].
  destruct (Py.mem role ["assistant editor"]) eqn:Has; [discriminate|].
  destruct (Py.mem role translator_synonyms); [discriminate|].
  exfalso. simpl in Hsup.
  unfold Py.mem in Had, Hph, Has, Hsup. simpl in Had, Hph, Has, Hsup.
  rewrite !orb_false_r in Had, Has.
  apply orb_false_elim in Hph. destruct Hph as [Hph _].
  rewrite Had, Hph, Has in Hsup. simpl in Hsup.
  rewrite orb_false_r in Hsup.
  apply String.eqb_eq in Hsup. contradiction.
Qed.

End RoleProperties.

Lemma supported_role_has_activity_witness :
  fst (credit_activity (api := Sample.api)
         (Credit.Build "Jane Doe" "Plotter" false "")) <> "Other".
Proof.
  apply (supported_role_has_activity (api := Sample.api)
           (Credit.Build "Jane Doe" "Plotter" false "")).
  - reflexivity.
  - simpl. discriminate.
Defined.

(** ** The bookmark of a page (lines 794-805) *)

Lemma truthy_str_not_empty (x : string) :
  Py.truthy_str x = true -> String.eqb x "" = false.
Proof. destruct x; [discriminate|reflexivity]. Qed.

Lemma titles_in_cons (f : string -> bool) (t : Element)
      (titles : list Element) :
  titles_in f (t :: titles)
  = (if f (get_default "lang" "" t) then title_text t else [])
      ++ titles_in f titles.
Proof. reflexivity. Qed.

Lemma read_bookmark_from (titles : list Element) (init : string) :
  read_bookmark titles init
  = match titles_in (fun l => String.eqb l "") titles with
    | x :: _ => x
    | [] =>
        match rev (titles_in (fun l => String.eqb l "en") titles) with
        | x :: _ => x
        | [] =>
            if String.eqb init ""
            then match titles_in (fun _ => true) titles with
                 | x :: _ => x
                 | [] => ""
                 end
            else init
        end
    end.
Proof.
  revert init. induction titles as [|t titles IH]; intros init.
  - simpl. destruct (String.eqb init "") eqn:He; [|reflexivity].
    apply String.eqb_eq in He. exact He.
  - cbn [read_bookmark]. rewrite !titles_in_cons.
    assert (Hnone : title_text t = [] ->
                    read_bookmark titles init
                    = match (if String.eqb (get_default "lang" "" t) ""
                             then title_text t else [])
                            ++ titles_in (fun l => String.eqb l "") titles with
                      | x :: _ => x
                      | [] =>
                          match rev ((if String.eqb (get_default "lang" "" t) "en"
                                      then title_text t else [])
                                     ++ titles_in (fun l => String.eqb l "en")
                                          titles) with
                          | x :: _ => x
                          | [] =>
                              if String.eqb init ""
                              then match title_text t
                                         ++ titles_in (fun _ => true) titles with
                                   | x :: _ => x
                                   | [] => ""
                                   end
                              else init
                          end
                      end).
    { intros Ht. rewrite Ht.
      destruct (String.eqb (get_default "lang" "" t) "");
        destruct (String.eqb (get_default "lang" "" t) "en");
        cbn [app]; apply IH. }
    destruct (text t) as [x|] eqn:Htext;
      [|apply Hnone; unfold title_text; rewrite Htext; reflexivity].
    destruct (Py.truthy_str x) eqn:Hx; cbn [negb];
      [|apply Hnone; unfold title_text; rewrite Htext, Hx; reflexivity].
    assert (Htt : title_text t = [x])
      by (unfold title_text; rewrite Htext, Hx; reflexivity).
    rewrite Htt. clear Hnone.
    pose proof (truthy_str_not_empty x Hx) as Hxe.
    destruct (String.eqb (get_default "lang" "" t) "") eqn:Hl;
      [reflexivity|].
    destruct (String.eqb (get_default "lang" "" t) "en") eqn:Hen.
    + cbn [app]. rewrite IH. rewrite Hxe.
      destruct (titles_in (fun l => String.eqb l "") titles); [|reflexivity].
      cbn [rev].
      destruct (rev (titles_in (fun l => String.eqb l "en") titles));
        reflexivity.
    + cbn [app].
      destruct (String.eqb init "") eqn:Hi; rewrite IH.
      * rewrite Hxe. reflexivity.
      * rewrite Hi. reflexivity.
Qed.

(** The bookmark read for a page follows the priority the code's comment
    states: the first title without [lang], else the last English one,
    else the first title; titles without text are passed over, and the
    bookmark is empty when no title has a text. *)
Theorem read_bookmark_by_priority (titles : list Element) :
  read_bookmark titles "" = title_by_priority titles.
Proof.
  rewrite read_bookmark_from. reflexivity.
Qed.

(** ** The archive index of a page (lines 783-785, 807-812) *)

Lemma lookup_set_item {V : Type} (k k' : string) (v : V)
      (d : list (string * V)) :
  lookup k (set_item k' v d)
  = if String.eqb k' k then Some v else lookup k d.
Proof.
  induction d as [|[k0 v0] d IH]; simpl.
  - reflexivity.
  - destruct (String.eqb k0 k') eqn:H0; simpl.
    + apply String.eqb_eq in H0. subst k0.
      destruct (String.eqb k' k); reflexivity.
    + destruct (String.eqb k0 k) eqn:H1; [|exact IH].
      apply String.eqb_eq in H1. subst k0. rewrite String.eqb_sym in H0.
      rewrite String.eqb_sym. rewrite String.eqb_sym in H0. rewrite H0.
      reflexivity.
Qed.

Lemma page_file_list_from (f : string) (l : list string) (i : nat)
      (d : list (string * nat)) :
  lookup f (fold_left (fun d x => set_item (snd x) (fst x) d)
                      (enumerate_from i l) d)
  = match last_index f l with
    | Some j => Some (i + j)
    | None => lookup f d
    end.
Proof.
  revert i d. induction l as [|a l IH]; intros i d; simpl.
  - reflexivity.
  - rewrite IH. destruct (last_index f l) as [j|].
    + f_equal. lia.
    + rewrite lookup_set_item. destruct (String.eqb a f); [|reflexivity].
      f_equal. lia.
Qed.

Lemma last_index_spec (f : string) (l : list string) :
  match last_index f l with
  | Some k =>
      nth_error l k = Some f
      /\ forall j, k < j -> nth_error l j <> Some f
  | None => ~ In f l
  end.
Proof.
  induction l as [|a l IH]; simpl.
  - intros [].
  - destruct (last_index f l) as [k|].
    + destruct IH as [Hk Hlater]. split; [exact Hk|].
      intros j Hj. destruct j as [|j]; [lia|]. simpl.
      apply Hlater. lia.
    + destruct (String.eqb a f) eqn:He.
      * apply String.eqb_eq in He. subst a. split; [reflexivity|].
        intros j Hj. destruct j as [|j]; [lia|]. simpl.
        intros Hn. apply IH. eapply nth_error_In. exact Hn.
      * apply String.eqb_neq in He. intros [Ha|Hin]; [contradiction|].
        apply IH. exact Hin.
Qed.

(** A page read from the document gets, as [archive_index], the last
    position at which its file name occurs in the archive's file list,
    and its own position among the pages when the name does not occur. *)
Theorem archive_index_of_page (file_list : list string) (i : nat)
        (page : Element) :
  let p := read_page file_list (i, page) in
  match last_index (PageMetadata.filename p) file_list with
  | Some k =>
      PageMetadata.archive_index p = Z.of_nat k
      /\ nth_error file_list k = Some (PageMetadata.filename p)
      /\ (forall j, k < j ->
                    nth_error file_list j <> Some (PageMetadata.filename p))
  | None =>
      PageMetadata.archive_index p = Z.of_nat i
      /\ ~ In (PageMetadata.filename p) file_list
  end.
Proof.
  cbv zeta. unfold read_page. cbn [PageMetadata.filename PageMetadata.archive_index].
  set (f := match find_tag "image" page with
            | Some img => get_default "href" "" img
            | None => ""
            end).
  unfold page_file_list. rewrite page_file_list_from.
  pose proof (last_index_spec f file_list) as Hspec.
  destruct (last_index f file_list) as [k|].
  - destruct Hspec as [H1 H2]. repeat split; assumption.
  - split; [reflexivity|exact Hspec].
Qed.

(** ** Removing the old scan paragraphs (lines 552-554) *)

Lemma remove_scan_unmarked_pair (l : list Element) :
  filter (fun s => negb (is_scan s)) (remove_scan l)
  = filter (fun s => negb (is_scan s)) l
  /\ forall a,
      filter (fun s => negb (is_scan s)) (remove_scan (a :: l))
      = filter (fun s => negb (is_scan s)) (a :: l).
Proof.
  induction l as [|b l [IH1 IH2]].
  - split; [reflexivity|]. intros a.
    cbn [remove_scan]. destruct (is_scan a) eqn:Ha; cbn [filter];
      rewrite ?Ha; reflexivity.
  - split; [apply IH2|].
    intros a. cbn [remove_scan].
    destruct (is_scan a) eqn:Ha.
    + cbn [filter]. rewrite Ha. cbn [negb]. rewrite IH1. reflexivity.
    + cbn [filter]. rewrite Ha. cbn [negb]. f_equal. apply IH2.
Qed.

(** The loop never drops a paragraph without the marker, and keeps their
    order. *)
Theorem remove_scan_keeps_unmarked (l : list Element) :
  filter (fun s => negb (is_scan s)) (remove_scan l)
  = filter (fun s => negb (is_scan s)) l.
Proof. apply remove_scan_unmarked_pair. Qed.

Lemma remove_scan_all_pair (l : list Element) :
  (adjacent_marked l = false ->
   remove_scan l = filter (fun s => negb (is_scan s)) l)
  /\ forall a,
      adjacent_marked (a :: l) = false ->
      remove_scan (a :: l) = filter (fun s => negb (is_scan s)) (a :: l).
Proof.
  induction l as [|b l [IH1 IH2]].
  - split; [reflexivity|]. intros a _.
    cbn [remove_scan]. destruct (is_scan a) eqn:Ha; cbn [filter];
      rewrite ?Ha; reflexivity.
  - split; [apply IH2|].
    intros a Hadj. cbn [adjacent_marked] in Hadj.
    apply orb_false_elim in Hadj. destruct Hadj as [Hab Hrest].
    cbn [remove_scan]. destruct (is_scan a) eqn:Ha.
    + cbn [andb] in Hab. cbn [filter]. rewrite Ha, Hab. cbn [negb].
      f_equal. apply IH1.
      destruct l as [|c l]; [reflexivity|].
      cbn [adjacent_marked] in Hrest. rewrite Hab in Hrest. exact Hrest.
    + cbn [filter]. rewrite Ha. cbn [negb]. f_equal. apply IH2. exact Hrest.
Qed.

(** When no two marked paragraphs are adjacent, the loop removes every
    marked paragraph. *)
Theorem remove_scan_removes_marked (l : list Element) :
  adjacent_marked l = false ->
  remove_scan l = filter (fun s => negb (is_scan s)) l.
Proof. apply remove_scan_all_pair. Qed.

Lemma remove_scan_removes_marked_witness :
  remove_scan [Elem "p" [] (Some "[Scan]one") [];
               Elem "p" [] (Some "note") [];
               Elem "p" [] (Some "[Scan]two") []]
  = [Elem "p" [] (Some "note") []].
Proof.
  apply (remove_scan_removes_marked
           [Elem "p" [] (Some "[Scan]one") [];
            Elem "p" [] (Some "note") [];
            Elem "p" [] (Some "[Scan]two") []]).
  reflexivity.
Defined.

(** ** The shape of the publish date (lines 528-538) *)

Lemma forallb_range (f : Z -> bool) (n z : Z) :
  forallb f (map Z.of_nat (seq 0 (Z.to_nat n))) = true ->
  (0 <= z < n)%Z -> f z = true.
Proof.
  intros Hall Hz. rewrite forallb_forall in Hall. apply Hall.
  apply in_map_iff. exists (Z.to_nat z). split; [lia|].
  apply in_seq. lia.
Qed.

Lemma format_4_digits (z : Z) :
  (0 <= z <= 9999)%Z -> digits 4 (Py.format_0 4 z) = true.
Proof.
  intros Hz.
  apply (forallb_range (fun z => digits 4 (Py.format_0 4 z)) 10000%Z);
    [vm_compute; reflexivity|lia].
Qed.

Lemma format_2_digits (z : Z) :
  (0 <= z <= 99)%Z -> digits 2 (Py.format_0 2 z) = true.
Proof.
  intros Hz.
  apply (forallb_range (fun z => digits 2 (Py.format_0 2 z)) 100%Z);
    [vm_compute; reflexivity|lia].
Qed.

Lemma normalize_year_range (y : Z) :
  (1 <= y <= 9999)%Z -> (100 <= normalize_year y <= 9999)%Z.
Proof.
  intros Hy. unfold normalize_year.
  destruct (y <? 50)%Z eqn:H50; [apply Z.ltb_lt in H50; lia|].
  apply Z.ltb_ge in H50.
  destruct (y <? 100)%Z eqn:H100; [apply Z.ltb_lt in H100; lia|].
  apply Z.ltb_ge in H100. lia.
Qed.

Lemma or_1_range (x : option Z) (n : Z) :
  (1 <= n)%Z ->
  match x with Some z => (0 <= z <= n)%Z | None => True end ->
  (0 <= or_1 x <= n)%Z.
Proof.
  intros Hn Hx. unfold or_1. destruct x as [z|]; [|lia].
  destruct (Z.eqb z 0); lia.
Qed.

Lemma digits_4_shape (s : string) :
  digits 4 s = true ->
  exists a b c d, s = String a (String b (String c (String d EmptyString))).
Proof.
  unfold digits. intros H. apply andb_prop in H. destruct H as [Hl _].
  destruct s as [|a [|b [|c [|d [|e s]]]]]; try discriminate.
  exists a, b, c, d. reflexivity.
Qed.

Lemma digits_2_shape (s : string) :
  digits 2 s = true -> exists a b, s = String a (String b EmptyString).
Proof.
  unfold digits. intros H. apply andb_prop in H. destruct H as [Hl _].
  destruct s as [|a [|b [|c s]]]; try discriminate.
  exists a, b. reflexivity.
Qed.

Section DateShape.

Context {api : Comicapi}.

(** For a year from 1 to 9999, with month and day unset or between 0 and
    99, the date written is ten characters long: four digits, a dash, two
    digits, a dash, two digits. *)
Theorem pub_date_shape (md : Metadata) (y : Z) :
  year md = Some y ->
  (1 <= y <= 9999)%Z ->
  match month md with Some m => (0 <= m <= 99)%Z | None => True end ->
  match day md with Some d => (0 <= d <= 99)%Z | None => True end ->
  exists yyyy mm dd,
    pub_date md
    = Some (String.append yyyy
              (String.append "-" (String.append mm (String.append "-" dd))))
    /\ digits 4 yyyy = true
    /\ digits 2 mm = true
    /\ digits 2 dd = true.
Proof.
  intros Hy Hrange Hm Hd.
  rewrite (pub_date_of_year md y Hy) by lia.
  eexists. eexists. eexists. split; [reflexivity|].
  split; [|split].
  - apply format_4_digits. pose proof (normalize_year_range y Hrange). lia.
  - apply format_2_digits. apply or_1_range; [lia|exact Hm].
  - apply format_2_digits. apply or_1_range; [lia|exact Hd].
Qed.

End DateShape.

Lemma pub_date_shape_witness :
  exists yyyy mm dd,
    pub_date (api := Sample.api)
             (Inputs.record None None (Some 99%Z) None [])
    = Some (String.append yyyy
              (String.append "-" (String.append mm (String.append "-" dd))))
    /\ digits 4 yyyy = true
    /\ digits 2 mm = true
    /\ digits 2 dd = true.
Proof.
  apply (pub_date_shape (api := Sample.api)
           (Inputs.record None None (Some 99%Z) None []) 99%Z).
  - reflexivity.
  - lia.
  - exact I.
  - exact I.
Defined.
